(** * CESiteAnalyzer: the framework detection engine of [popup.js]

    A shallow embedding of [analyzePage] / [getDetectedFrameworks]
    ([src/popup.js], lines 154-604, and the copy in the modular entry point,
    [detectFrameworks] / [getDetectedFrameworks]) and the properties of the
    weighted multi-signal scoring that the specification states.

    Modelling conventions.
    - JavaScript strings are [string]s; [toLowerCase] acts on the ASCII
      letters, which is what the catalog patterns are made of.
    - Weights, thresholds and confidences are JavaScript numbers holding
      integers; they are embedded in [Z].
    - The inspected page is a record [Document] of the observations the
      engine makes of it (globals, script tags, elements carrying a class,
      serialized markup, selector queries).
    - Code that may throw lives in the monad [M], which threads the
      console and carries a completion, [Normal] or [Throw]; [try_catch]
      is the [try { } catch(e) { }] of the source. *)

From Stdlib Require Import ZArith List String Ascii Bool Lia Arith.
From Stdlib Require Import DecimalString Permutation.
Import ListNotations.
Open Scope string_scope.
Open Scope Z_scope.

Set Implicit Arguments.

(* ================================================================== *)
(** * JavaScript strings *)

Module JSString.

(** [String.prototype.toLowerCase], on the ASCII range. *)
Definition lowerAscii (a : ascii) : ascii :=
  let n := nat_of_ascii a in
  if (65 <=? n)%nat && (n <=? 90)%nat then ascii_of_nat (n + 32) else a.

Fixpoint toLowerCase (s : string) : string :=
  match s with
  | EmptyString => EmptyString
  | String a s' => String (lowerAscii a) (toLowerCase s')
  end.

(** [s.startsWith(p)]. *)
Fixpoint startsWith (s p : string) : bool :=
  match p, s with
  | EmptyString, _ => true
  | String _ _, EmptyString => false
  | String b p', String a s' => Ascii.eqb a b && startsWith s' p'
  end.

(** [s.includes(p)]: [p] occurs in [s] at some offset. *)
Fixpoint includes (s p : string) : bool :=
  startsWith s p ||
  match s with
  | EmptyString => false
  | String _ s' => includes s' p
  end.

(** [s.indexOf(p)], [None] standing for [-1]. *)
Fixpoint indexOf (s p : string) : option nat :=
  if startsWith s p then Some O
  else match s with
       | EmptyString => None
       | String _ s' => option_map S (indexOf s' p)
       end.

(** [s.slice(0, n)] for [0 <= n]. *)
Definition slice0 (n : nat) (s : string) : string := substring 0 n s.

(** [s.substring(start, end)] for [start <= end]. *)
Definition substring_ (start end_ : nat) (s : string) : string :=
  substring start (end_ - start) s.

(** A string is truthy iff it is not empty. *)
Definition nonEmpty (s : string) : bool :=
  match s with EmptyString => false | String _ _ => true end.

(** [x.slice(0, n) + (x.length > n ? '...' : '')]. *)
Definition excerpt (n : nat) (s : string) : string :=
  slice0 n s ++ (if (n <? String.length s)%nat then "..." else EmptyString).

(** Template-literal interpolation of an integer. *)
Definition ofNat (n : nat) : string := NilZero.string_of_uint (Nat.to_uint n).
Definition ofZ (z : Z) : string := NilZero.string_of_int (Z.to_int z).

End JSString.
Import JSString.

(* ================================================================== *)
(** * JavaScript values, completions and the console *)

(** The values a global, or the result of a predicate, can hold, as far
    as the engine looks at them: truthiness, [typeof] and [String(v)]. *)
Inductive JSValue : Type :=
| JSUndefined
| JSNull
| JSBoolean (b : bool)
| JSNumber (z : Z)
| JSStr (s : string)
| JSObject
| JSFunction.

Definition truthy (v : JSValue) : bool :=
  match v with
  | JSUndefined | JSNull => false
  | JSBoolean b => b
  | JSNumber z => negb (z =? 0)
  | JSStr s => nonEmpty s
  | JSObject | JSFunction => true
  end.

Definition typeof (v : JSValue) : string :=
  match v with
  | JSUndefined => "undefined"
  | JSNull | JSObject => "object"
  | JSBoolean _ => "boolean"
  | JSNumber _ => "number"
  | JSStr _ => "string"
  | JSFunction => "function"
  end.

(** [String(v)] for the primitives it is applied to in the engine. *)
Definition String_ (v : JSValue) : string :=
  match v with
  | JSUndefined => "undefined"
  | JSNull => "null"
  | JSBoolean true => "true"
  | JSBoolean false => "false"
  | JSNumber z => ofZ z
  | JSStr s => s
  | JSObject => "[object Object]"
  | JSFunction => "function()"
  end.

Inductive Exn : Type :=
| SyntaxError (msg : string)
| SecurityError (msg : string)
| TypeError (msg : string)
| Error_ (msg : string).

Inductive Completion (A : Type) : Type :=
| Normal (a : A)
| Throw (e : Exn).
Arguments Normal {A} a.
Arguments Throw {A} e.

(** One entry of [signalResults.details]: a string, or an array of
    element samples. *)
Inductive Detail : Type :=
| DetailString (s : string)
| DetailArray (l : list string).

(** What is handed to [console.log] after the format string. *)
Inductive LogData : Type :=
| DataString (s : string)
| DataObject (fields : list (string * string))
| DataDetails (l : list Detail).

Record ConsoleEntry : Type := ConsoleLog {
  format : string;
  args : list LogData
}.

Definition Console : Type := list ConsoleEntry.

(** Computations that write to the console and may throw. *)
Definition M (A : Type) : Type := Console -> Completion A * Console.

Definition ret {A} (a : A) : M A := fun c => (Normal a, c).

Definition bind {A B} (m : M A) (k : A -> M B) : M B :=
  fun c =>
    match m c with
    | (Normal a, c') => k a c'
    | (Throw e, c') => (Throw e, c')
    end.

Definition throw {A} (e : Exn) : M A := fun c => (Throw e, c).

(** [try { m } catch(e) { h e }]. *)
Definition try_catch {A} (m : M A) (h : Exn -> M A) : M A :=
  fun c =>
    match m c with
    | (Normal a, c') => (Normal a, c')
    | (Throw e, c') => h e c'
    end.

(** A call into the page that either returns or throws. *)
Definition call {A} (r : Completion A) : M A := fun c => (r, c).

Definition console_log (fmt : string) (xs : list LogData) : M unit :=
  fun c => (Normal tt, (c ++ [ConsoleLog fmt xs])%list).

Notation "x <- m ;; k" := (bind m (fun x => k))
  (at level 61, m at next level, right associativity).
Notation "m ;;; k" := (bind m (fun _ => k))
  (at level 61, right associativity).

(** [l.forEach(x => { s = f s x })], the callback updating the variables
    [s] it closes over. *)
Fixpoint forEach {S A} (f : S -> A -> M S) (l : list A) (s : S) : M S :=
  match l with
  | [] => ret s
  | x :: l' => s' <- f s x ;; forEach f l' s'
  end.

(** [if (b) { m }] *)
Definition when (b : bool) (m : M unit) : M unit := if b then m else ret tt.

(* ================================================================== *)
(** * The inspected document *)

(** [el.className]: a string on HTML elements, an [SVGAnimatedString] on
    SVG ones. *)
Inductive ClassName : Type :=
| ClassString (s : string)
| SVGAnimatedString (baseVal : string).

Record Element : Type := {
  tagName : string;
  outerHTML : string;
  className : ClassName;
  src : string;
  href : string
}.

Record Document : Type := {
  (** [window[name]] *)
  window : string -> JSValue;
  (** [document.documentElement.outerHTML] *)
  documentElement_outerHTML : string;
  (** [document.querySelectorAll('script[src]')] *)
  scriptTags : list Element;
  (** [document.querySelectorAll('[class]')] *)
  classElements : list Element;
  (** [document.querySelectorAll('link[rel="stylesheet"][href]')], read by
      the file listing of [analyzePage] only *)
  styleLinks : list Element;
  (** [document.querySelectorAll(selector)] for a selector built at run
      time; throws a [SyntaxError] on a selector it cannot parse *)
  querySelectorAll : string -> Completion (list Element)
}.

(* ================================================================== *)
(** * The signal catalog *)

(** A signal.  [patterns] and [test] are [None] when the property is
    absent.  A predicate reads the document and returns a value or throws;
    the lines some predicates of the modular catalog write to the console
    in debug mode are not part of the model. *)
Record Signal : Type := {
  type : string;
  patterns : option (list string);
  test : option (Document -> Completion JSValue);
  weight : Z
}.

Record Framework : Type := {
  name : string;
  confidence : Z;
  signals : list Signal;
  minConfidence : Z
}.

Record Catalog : Type := {
  js : list Framework;
  css : list Framework
}.

(** The [options] object built by [handleFormSubmit]. *)
Module Options.
Record t : Type := {
  jsFrameworks : bool;
  cssFrameworks : bool;
  listJS : bool;
  listCSS : bool;
  debugMode : bool
}.
End Options.

(** The framework part of the [findings] object ([frameworkFindings] in
    the modular entry point); the file lists are computed independently
    of it and are outside this development. *)
Module Findings.
Record t : Type := {
  jsFrameworks : list string;
  cssFrameworks : list string
}.
End Findings.

(** [framework.confidence = z] *)
Definition set_confidence (f : Framework) (z : Z) : Framework :=
  {| name := name f; confidence := z;
     signals := signals f; minConfidence := minConfidence f |}.

Record SignalResults : Type := {
  sr_type : string;
  sr_weight : Z;
  detected : bool;
  details : list Detail
}.

Definition set_detected (r : SignalResults) : SignalResults :=
  {| sr_type := sr_type r; sr_weight := sr_weight r;
     detected := true; details := details r |}.

Definition push_details (r : SignalResults) (ds : list Detail) : SignalResults :=
  {| sr_type := sr_type r; sr_weight := sr_weight r;
     detected := detected r; details := (details r ++ ds)%list |}.

(* ================================================================== *)
(** * The scoring engine *)

(** The double quote that the debug messages put around a pattern. *)
Definition dquote : string := String (ascii_of_nat 34) EmptyString.

(** [typeof el.className === 'string' ? el.className
                                       : (el.className.baseVal || '')] *)
Definition classText (el : Element) : string :=
  match className el with
  | ClassString s => s
  | SVGAnimatedString baseVal => if nonEmpty baseVal then baseVal else EmptyString
  end.

(** The variables a signal's evaluation updates: the framework (its
    [confidence]) and the local [signalResults]. *)
Definition Acc : Type := (Framework * SignalResults)%type.

(** [framework.confidence += w; signalResults.detected = true;
     signalResults.details.push(...ds)] *)
Definition fire (w : Z) (ds : list Detail) (a : Acc) : Acc :=
  (set_confidence (fst a) (confidence (fst a) + w),
   push_details (set_detected (snd a)) ds).

(** The engine exists in two copies: in the single-file entry point
    ([popup.js]) and in the modular one.  They are the same text, except
    that the modular copy has no [styleRule] and no [multiClass] branch. *)
Inductive EntryPoint : Type := SingleFile | Modular.

Section Engine.

(** [analyzePage(options)], evaluated in the context of [document]. *)
Variable options : Options.t.
Variable document : Document.

(** Which copy of the engine runs. *)
Variable entry : EntryPoint.

Definition debugLog (message : string) (data : option LogData) : M unit :=
  if Options.debugMode options
  then console_log ("%c[Tech Analyzer Debug] %c" ++ message)
         [DataString "color: #2b90d9; font-weight: bold;";
          DataString "color: inherit;";
          match data with Some x => x | None => DataString EmptyString end]
  else ret tt.

(** ** [global] signals *)
Definition globalPattern (signal : Signal) (a : Acc) (pattern : string) : M Acc :=
  if truthy (window document pattern) then
    let a1 := fire (weight signal)
                [DetailString ("Found global variable: " ++ pattern)] a in
    if Options.debugMode options then
      let type_ := typeof (window document pattern) in
      let isFunction := String.eqb type_ "function" in
      let preview :=
        if isFunction then "function()"
        else if String.eqb type_ "object"
             then match window document pattern with
                  | JSNull => "null"
                  | _ => "{}"
                  end
             else slice0 50 (String_ (window document pattern)) in
      ret (fst a1,
           push_details (snd a1)
             [DetailString ("Type: " ++ type_ ++ ", Value: " ++ preview)])
    else ret a1
  else ret a.

(** ** [file] signals *)
Definition filePattern (signal : Signal) (scriptTags_ : list Element)
    (scriptSrcs : list string) (pageSource : string)
    (a : Acc) (pattern : string) : M Acc :=
  let patternLower := toLowerCase pattern in
  let matchingSrc := find (fun src_ => includes src_ patternLower) scriptSrcs in
  let otherwise : M Acc :=
    if includes pageSource patternLower then
      (* Lower weight if just mentioned in source but not as a script *)
      let a1 := fire 1
                  [DetailString ("Found pattern in page source: " ++ pattern)] a in
      if Options.debugMode options then
        let index := match indexOf pageSource patternLower with
                     | Some i => Z.of_nat i
                     | None => -1
                     end in
        let start := Z.max 0 (index - 50) in
        let end_ := Z.min (Z.of_nat (String.length pageSource))
                      (index + Z.of_nat (String.length patternLower) + 50) in
        let context := substring_ (Z.to_nat start) (Z.to_nat end_) pageSource in
        debugLog ("Source context containing " ++ dquote ++ pattern ++ dquote ++ ":")
                 (Some (DataString ("..." ++ context ++ "..."))) ;;;
        ret a1
      else ret a1
    else ret a in
  match matchingSrc with
  | Some found =>
      if nonEmpty found then
        let a1 := fire (weight signal)
                    [DetailString ("Found script src: " ++ found)] a in
        if Options.debugMode options then
          match find (fun tag => includes (toLowerCase (src tag)) patternLower)
                     scriptTags_ with
          | Some matchingTag =>
              debugLog ("Script file matching " ++ dquote ++ pattern ++ dquote ++ ":")
                (Some (DataObject
                   [("fullUrl", src matchingTag);
                    ("tag", excerpt 150 (outerHTML matchingTag))])) ;;;
              ret a1
          | None => ret a1
          end
        else ret a1
      else otherwise
  | None => otherwise
  end.

(** ** [attribute] signals *)
Definition attributePattern (signal : Signal) (a : Acc) (pattern : string) : M Acc :=
  let selector := "[" ++ pattern ++ "],[data-" ++ pattern ++ "]" in
  try_catch
    (matchingElements <- call (querySelectorAll document selector) ;;
     if (0 <? List.length matchingElements)%nat then
       let a1 := fire (weight signal)
                   [DetailString ("Found " ++ ofNat (List.length matchingElements)
                                   ++ " elements with attribute: " ++ pattern)] a in
       if Options.debugMode options then
         debugLog ("Detected " ++ ofNat (List.length matchingElements)
                    ++ " elements with attribute: " ++ pattern) None ;;;
         let elementDetails :=
           map (fun el => "<" ++ toLowerCase (tagName el) ++ "...> "
                            ++ excerpt 100 (outerHTML el))
               (firstn 3 matchingElements) in
         ret (fst a1,
              push_details (snd a1)
                [DetailString "Element samples:"; DetailArray elementDetails])
       else ret a1
     else ret a)
    (fun _ => (* Ignore invalid selector errors *) ret a).

(** ** [class] signals *)

(** The [for (const el of elements)] loop, left by [break] at the first
    element whose class text contains the pattern. *)
Fixpoint classScan (signal : Signal) (patternLower : string)
    (elements : list Element) (foundElements : list Element) (a : Acc)
  : list Element * Acc :=
  match elements with
  | [] => (foundElements, a)
  | el :: rest =>
      let className_ := classText el in
      if includes (toLowerCase className_) patternLower then
        ((foundElements ++ [el])%list,
         (set_confidence (fst a) (confidence (fst a) + weight signal),
          set_detected (snd a)))
      else classScan signal patternLower rest foundElements a
  end.

Definition classPattern (signal : Signal) (a : Acc) (pattern : string) : M Acc :=
  let elements := classElements document in
  let patternLower := toLowerCase pattern in
  let (foundElements, a1) := classScan signal patternLower elements [] a in
  if (0 <? List.length foundElements)%nat then
    let a2 := (fst a1,
               push_details (snd a1)
                 [DetailString ("Found " ++ ofNat (List.length foundElements)
                                 ++ " elements with class matching: " ++ pattern)]) in
    match foundElements with
    | first :: _ =>
        let a3 := (fst a2,
                   push_details (snd a2)
                     [DetailString ("Example class: " ++ classText first)]) in
        if Options.debugMode options then
          let elementDetails :=
            map (fun el => "<" ++ toLowerCase (tagName el) ++ " class="
                             ++ dquote ++ classText el ++ dquote ++ "...> "
                             ++ excerpt 100 (outerHTML el))
                (firstn 3 foundElements) in
          ret (fst a3,
               push_details (snd a3)
                 [DetailString "Element samples with matching classes:";
                  DetailArray elementDetails])
        else ret a3
    | [] => ret a2
    end
  else ret a1.

(** ** [dom], [styleRule] and [multiClass] signals: a predicate run
    inside [try { } catch(e) { }]. *)
Definition predicateSignal (ty passed : string) (signal : Signal) (a : Acc) : M Acc :=
  if String.eqb (type signal) ty then
    match test signal with
    | Some test_ =>
        try_catch
          (v <- call (test_ document) ;;
           if truthy v
           then ret (fire (weight signal) [DetailString passed] a)
           else ret a)
          (fun _ => (* Ignore test failures *) ret a)
    | None => ret a
    end
  else ret a.

(** [if (signal.type === ty && signal.patterns)
      signal.patterns.forEach(step)] *)
Definition patternSignal (ty : string) (step : Signal -> Acc -> string -> M Acc)
    (signal : Signal) (a : Acc) : M Acc :=
  if String.eqb (type signal) ty then
    match patterns signal with
    | Some ps => forEach (step signal) ps a
    | None => ret a
    end
  else ret a.

Definition fileSignal (signal : Signal) (a : Acc) : M Acc :=
  if String.eqb (type signal) "file" then
    match patterns signal with
    | Some ps =>
        let scriptTags_ := scriptTags document in
        let scriptSrcs := map (fun tag => toLowerCase (src tag)) scriptTags_ in
        let pageSource := toLowerCase (documentElement_outerHTML document) in
        forEach (filePattern signal scriptTags_ scriptSrcs pageSource) ps a
    | None => ret a
    end
  else ret a.

(** The body of [framework.signals.forEach(signal => ...)]. *)
Definition evalSignal (st : Framework * list SignalResults) (signal : Signal)
  : M (Framework * list SignalResults) :=
  let (framework, detectionDetails) := st in
  let signalResults :=
    {| sr_type := type signal; sr_weight := weight signal;
       detected := false; details := [] |} in
  a <- patternSignal "global" globalPattern signal (framework, signalResults) ;;
  a <- fileSignal signal a ;;
  a <- patternSignal "attribute" attributePattern signal a ;;
  a <- patternSignal "class" classPattern signal a ;;
  a <- predicateSignal "dom" "DOM structure test passed" signal a ;;
  a <- match entry with
       | SingleFile => predicateSignal "styleRule" "Style rule test passed" signal a
       | Modular => ret a
       end ;;
  a <- match entry with
       | SingleFile =>
           predicateSignal "multiClass" "Multi-class pattern test passed" signal a
       | Modular => ret a
       end ;;
  (* Save detection details if this signal contributed to detection *)
  ret (fst a,
       if detected (snd a) then (detectionDetails ++ [snd a])%list
       else detectionDetails).

(** The body of [frameworkList.forEach(framework => ...)]; the state is
    [detectedFrameworks] and the frameworks already visited, as the
    pass leaves them. *)
Definition evalFramework (st : list string * list Framework) (framework : Framework)
  : M (list string * list Framework) :=
  let (detectedFrameworks, visited) := st in
  (* Reset confidence for this framework *)
  let framework0 := set_confidence framework 0 in
  r <- forEach evalSignal (signals framework0) (framework0, []) ;;
  let (framework1, detectionDetails) := r in
  (* Only include frameworks that meet confidence threshold *)
  if minConfidence framework1 <=? confidence framework1 then
    when (Options.debugMode options)
      (debugLog ("Detected " ++ name framework1 ++ " with confidence score: "
                  ++ ofZ (confidence framework1) ++ "/"
                  ++ ofZ (minConfidence framework1)) None ;;;
       forEach (fun (_ : unit) signal =>
                  debugLog ("Signal type: " ++ sr_type signal ++ " (weight: "
                             ++ ofZ (sr_weight signal) ++ ")")
                           (Some (DataDetails (details signal))))
               detectionDetails tt ;;;
       console_log "%c------------------------------------"
                   [DataString "color: #ccc"]) ;;;
    ret ((detectedFrameworks ++ [name framework1])%list,
         (visited ++ [framework1])%list)
  else ret (detectedFrameworks, (visited ++ [framework1])%list).

(** [getDetectedFrameworks(frameworkList)]: the detected names, and the
    framework objects as the pass leaves them. *)
Definition getDetectedFrameworks (frameworkList : list Framework)
  : M (list string * list Framework) :=
  forEach evalFramework frameworkList ([], []).

(** One family of [detectFrameworks]: run it when enabled and put the
    sentinel in an empty result. *)
Definition detectFamily (enabled : bool) (frameworkList : list Framework)
  : M (list string * list Framework) :=
  if enabled then
    r <- getDetectedFrameworks frameworkList ;;
    (* Ensure we always return something even if no frameworks detected *)
    if (List.length (fst r) =? 0)%nat
    then ret ((fst r ++ ["None detected"])%list, snd r)
    else ret r
  else ret ([], frameworkList).

(** [detectFrameworks()] (steps 1 and 2 of [analyzePage] in the
    single-file entry point). *)
Definition detectFrameworks (FRAMEWORK_DETECTION : Catalog)
  : M (Findings.t * Catalog) :=
  j <- detectFamily (Options.jsFrameworks options) (js FRAMEWORK_DETECTION) ;;
  c <- detectFamily (Options.cssFrameworks options) (css FRAMEWORK_DETECTION) ;;
  ret ({| Findings.jsFrameworks := fst j; Findings.cssFrameworks := fst c |},
       {| js := snd j; css := snd c |}).

End Engine.

(* ================================================================== *)
(** * Catalog entries *)

(** [document.querySelector(selector)] *)
Definition querySelector (d : Document) (selector : string)
  : Completion (option Element) :=
  match querySelectorAll d selector with
  | Normal els => Normal (hd_error els)
  | Throw e => Throw e
  end.

(** [() => !!document.querySelector(selector)] *)
Definition hasMatch (selector : string) (d : Document) : Completion JSValue :=
  match querySelector d selector with
  | Normal (Some _) => Normal (JSBoolean true)
  | Normal None => Normal (JSBoolean false)
  | Throw e => Throw e
  end.

Definition patternSig (ty : string) (ps : list string) (w : Z) : Signal :=
  {| type := ty; patterns := Some ps; test := None; weight := w |}.

Definition testSig (ty : string) (t : Document -> Completion JSValue) (w : Z) : Signal :=
  {| type := ty; patterns := None; test := Some t; weight := w |}.

(** The React entry, the same in both entry points. *)
Definition React : Framework :=
  {| name := "React";
     confidence := 0;
     signals :=
       [ patternSig "global" ["React"; "ReactDOM"; "__REACT_DEVTOOLS_GLOBAL_HOOK__"] 3;
         patternSig "attribute" ["data-reactroot"; "data-reactid"] 5;
         patternSig "class" ["react-"; "_react"] 2;
         patternSig "file" ["react.js"; "react.min.js"; "react-dom"] 4 ];
     minConfidence := 4 |}.

(** The AngularJS entry of the single-file entry point. *)
Definition AngularJS : Framework :=
  {| name := "AngularJS";
     confidence := 0;
     signals :=
       [ patternSig "attribute" ["ng-app"; "ng-controller"; "ng-model"; "ng-repeat"] 5;
         patternSig "global" ["angular.module"; "angular.bootstrap"] 4;
         patternSig "file" ["angular.js"; "angular.min.js"] 4;
         testSig "dom" (hasMatch "[ng-app],[data-ng-app]") 5 ];
     minConfidence := 5 |}.

(** The Chakra UI entry of the single-file entry point. *)
Definition ChakraUI : Framework :=
  {| name := "Chakra UI";
     confidence := 0;
     signals :=
       [ patternSig "attribute" ["data-chakra-"] 5;
         patternSig "class" ["chakra-"] 4;
         patternSig "file" ["chakra-ui"; "@chakra"] 3 ];
     minConfidence := 4 |}.

(* ================================================================== *)
(** * What one pass adds up: the weight each pattern and signal
      contributes, read off the engine.  The engine is proved to compute
      these (lemmas [*_run] below). *)

Fixpoint sumZ (l : list Z) : Z :=
  match l with
  | [] => 0
  | z :: l' => z + sumZ l'
  end.

Section Scores.

Variable document : Document.
Variable entry : EntryPoint.

Definition globalWeight (signal : Signal) (pattern : string) : Z :=
  if truthy (window document pattern) then weight signal else 0.

Definition sourceWeight (pattern : string) : Z :=
  if includes (toLowerCase (documentElement_outerHTML document))
              (toLowerCase pattern)
  then 1 else 0.

Definition fileWeight (signal : Signal) (pattern : string) : Z :=
  match find (fun src_ => includes src_ (toLowerCase pattern))
             (map (fun tag => toLowerCase (src tag)) (scriptTags document)) with
  | Some found => if nonEmpty found then weight signal else sourceWeight pattern
  | None => sourceWeight pattern
  end.

Definition attributeWeight (signal : Signal) (pattern : string) : Z :=
  match querySelectorAll document ("[" ++ pattern ++ "],[data-" ++ pattern ++ "]") with
  | Normal els => if (0 <? List.length els)%nat then weight signal else 0
  | Throw _ => 0
  end.

Definition classMatches (pattern : string) (el : Element) : bool :=
  includes (toLowerCase (classText el)) (toLowerCase pattern).

Definition classWeight (signal : Signal) (pattern : string) : Z :=
  if existsb (classMatches pattern) (classElements document)
  then weight signal else 0.

Definition patternsWeight (ty : string) (w : Signal -> string -> Z) (signal : Signal) : Z :=
  if String.eqb (type signal) ty then
    match patterns signal with
    | Some ps => sumZ (map (w signal) ps)
    | None => 0
    end
  else 0.

Definition predicateWeight (ty : string) (signal : Signal) : Z :=
  if String.eqb (type signal) ty then
    match test signal with
    | Some test_ =>
        match test_ document with
        | Normal v => if truthy v then weight signal else 0
        | Throw _ => 0
        end
    | None => 0
    end
  else 0.

Definition signalScore (signal : Signal) : Z :=
  patternsWeight "global" globalWeight signal
  + patternsWeight "file" fileWeight signal
  + patternsWeight "attribute" attributeWeight signal
  + patternsWeight "class" classWeight signal
  + predicateWeight "dom" signal
  + match entry with
    | SingleFile => predicateWeight "styleRule" signal
    | Modular => 0
    end
  + match entry with
    | SingleFile => predicateWeight "multiClass" signal
    | Modular => 0
    end.

Definition frameworkScore (framework : Framework) : Z :=
  sumZ (map signalScore (signals framework)).

Definition meetsThreshold (framework : Framework) : bool :=
  minConfidence framework <=? frameworkScore framework.

(** The frameworks as a pass leaves them, and the names it reports. *)
Definition scored (frameworkList : list Framework) : list Framework :=
  map (fun f => set_confidence f (frameworkScore f)) frameworkList.

Definition detectedNames (frameworkList : list Framework) : list string :=
  map name (filter meetsThreshold frameworkList).

End Scores.

(** A framework object that differs from [f] in its [confidence] by [z]. *)
Definition bumped (z : Z) (f f' : Framework) : Prop :=
  f' = set_confidence f (confidence f + z).

(** [wp m Q c]: run from console [c], [m] completes normally, with a
    value and a console that satisfy [Q]. *)
Definition wp {A} (m : M A) (Q : A -> Console -> Prop) (c : Console) : Prop :=
  match m c with
  | (Normal a, c') => Q a c'
  | (Throw _, _) => False
  end.

(** The sentinel of an empty result. *)
Definition sentinel : string := "None detected".

(* ================================================================== *)
(** * Families, options and documents used in the statements *)

(** The two detection families. *)
Inductive Family : Type := JS | CSS.

Definition familyEnabled (options : Options.t) (family : Family) : bool :=
  match family with
  | JS => Options.jsFrameworks options
  | CSS => Options.cssFrameworks options
  end.

Definition familyList (catalog : Catalog) (family : Family) : list Framework :=
  match family with
  | JS => js catalog
  | CSS => css catalog
  end.

Definition familyResult (findings : Findings.t) (family : Family) : list string :=
  match family with
  | JS => Findings.jsFrameworks findings
  | CSS => Findings.cssFrameworks findings
  end.

(** [options] with the debug checkbox set to [b]. *)
Definition setDebugMode (options : Options.t) (b : bool) : Options.t :=
  {| Options.jsFrameworks := Options.jsFrameworks options;
     Options.cssFrameworks := Options.cssFrameworks options;
     Options.listJS := Options.listJS options;
     Options.listCSS := Options.listCSS options;
     Options.debugMode := b |}.

(** The document [d] with other stylesheet links loaded. *)
Definition withStyleLinks (d : Document) (links : list Element) : Document :=
  {| window := window d;
     documentElement_outerHTML := documentElement_outerHTML d;
     scriptTags := scriptTags d;
     classElements := classElements d;
     styleLinks := links;
     querySelectorAll := querySelectorAll d |}.

(** The catalog after a call of [detectFrameworks]: the frameworks of
    an enabled family hold their scores. *)
Definition catalogAfter (options : Options.t) (d : Document) (entry : EntryPoint)
    (catalog : Catalog) : Catalog :=
  {| js := if Options.jsFrameworks options
           then scored d entry (js catalog) else js catalog;
     css := if Options.cssFrameworks options
            then scored d entry (css catalog) else css catalog |}.

(** What [detectFrameworks] reports for a list of frameworks. *)
Definition reported (enabled : bool) (d : Document) (entry : EntryPoint)
    (frameworkList : list Framework) : list string :=
  if enabled then
    match detectedNames d entry frameworkList with
    | [] => [sentinel]
    | names => names
    end
  else [].

(** ** Sample pages *)

Definition scriptTag (url : string) : Element :=
  {| tagName := "SCRIPT";
     outerHTML := "<script src=" ++ dquote ++ url ++ dquote ++ "></script>";
     className := ClassString EmptyString;
     src := url;
     href := EmptyString |}.

Definition styleLink (url : string) : Element :=
  {| tagName := "LINK";
     outerHTML := "<link rel=" ++ dquote ++ "stylesheet" ++ dquote
                    ++ " href=" ++ dquote ++ url ++ dquote ++ ">";
     className := ClassString EmptyString;
     src := EmptyString;
     href := url |}.

Definition divOfClass (cls : string) : Element :=
  {| tagName := "DIV";
     outerHTML := "<div class=" ++ dquote ++ cls ++ dquote ++ "></div>";
     className := ClassString cls;
     src := EmptyString;
     href := EmptyString |}.

(** A page that defines [window.React] and loads [react.min.js]. *)
Definition reactPage : Document :=
  {| window := fun g => if String.eqb g "React" then JSObject else JSUndefined;
     documentElement_outerHTML :=
       "<html><head>"
         ++ outerHTML (scriptTag "https://cdn.example.com/react.min.js")
         ++ "</head><body></body></html>";
     scriptTags := [scriptTag "https://cdn.example.com/react.min.js"];
     classElements := [];
     styleLinks := [];
     querySelectorAll := fun _ => Normal [] |}.

(** A page whose only mention of Bootstrap is the stylesheet it loads. *)
Definition stylesheetPage : Document :=
  {| window := fun _ => JSUndefined;
     documentElement_outerHTML :=
       "<html><head>"
         ++ outerHTML (styleLink "https://cdn.example.com/bootstrap.min.css")
         ++ "</head><body></body></html>";
     scriptTags := [];
     classElements := [];
     styleLinks := [styleLink "https://cdn.example.com/bootstrap.min.css"];
     querySelectorAll := fun _ => Normal [] |}.


(** A page where three elements carry a [react-] class. *)
Definition classyPage : Document :=
  {| window := fun _ => JSUndefined;
     documentElement_outerHTML := "<html><head></head><body></body></html>";
     scriptTags := [];
     classElements :=
       [divOfClass "header"; divOfClass "React-root"; divOfClass "react-app";
        divOfClass "btn react-button"];
     styleLinks := [];
     querySelectorAll := fun _ => Normal [] |}.


Definition allOn : Options.t :=
  {| Options.jsFrameworks := true; Options.cssFrameworks := true;
     Options.listJS := false; Options.listCSS := false;
     Options.debugMode := true |}.

Definition cssOnly : Options.t :=
  {| Options.jsFrameworks := false; Options.cssFrameworks := true;
     Options.listJS := false; Options.listCSS := false;
     Options.debugMode := false |}.

(** A catalog made of the entries above. *)
Definition sampleCatalog : Catalog :=
  {| js := [React; AngularJS]; css := [ChakraUI] |}.

(** An accumulator at the start of a signal of [framework]. *)
Definition startOf (framework : Framework) (signal : Signal) : Acc :=
  (set_confidence framework 0,
   {| sr_type := type signal; sr_weight := weight signal;
      detected := false; details := [] |}).

(* ================================================================== *)
(** * The file listing, the clipboard, the report and the theme *)

(** [s.split(sep)] for a one-character separator: never empty, the
    segments between the separators. *)
Fixpoint split_ (sep : ascii) (s : string) : list string :=
  match s with
  | EmptyString => [EmptyString]
  | String a s' =>
      if Ascii.eqb a sep then EmptyString :: split_ sep s'
      else match split_ sep s' with
           | [] => [String a EmptyString]
           | segment :: rest => String a segment :: rest
           end
  end.

Definition slash : ascii := ascii_of_nat 47.

(** [l.map(f).filter(x => x)] on results that are a string or [null]:
    [null] and the empty string are dropped. *)
Fixpoint keepTruthy (l : list (option string)) : list string :=
  match l with
  | [] => []
  | Some s :: rest => if nonEmpty s then s :: keepTruthy rest else keepTruthy rest
  | None :: rest => keepTruthy rest
  end.

(** [l.map(f)] for a callback that logs. *)
Fixpoint mapM {A B} (f : A -> M B) (l : list A) : M (list B) :=
  match l with
  | [] => ret []
  | x :: l' => y <- f x ;; ys <- mapM f l' ;; ret (y :: ys)
  end.

(** The parts of [new URL(address)] that the listing reads. *)
Record URL : Type := {
  pathname : string;
  search : string;
  hostname : string
}.

(** The four result lists of [analyzePage]. *)
Module Page.
Record t : Type := {
  jsFrameworks : list string;
  cssFrameworks : list string;
  jsFiles : list string;
  cssFiles : list string
}.
End Page.

Section Listing.

(** The [URL] constructor of the browser: the parsed address, or the
    [TypeError] it throws on an address it cannot parse. *)
Variable URL_ : string -> Completion URL.

(** The callback of [.map] in the listing of [analyzePage], on the [src]
    of a script or the [href] of a stylesheet link; [None] is [null]. *)
Definition fileEntry (address : string) : option string :=
  match URL_ address with
  | Normal url =>
      let pathname_ := pathname url in
      (* Skip API calls and non-file URLs *)
      if includes pathname_ "/api/"
         || includes pathname_ "/json"
         || nonEmpty (search url)
         || negb (includes pathname_ ".")
      then None
      else (* Extract just the filename *)
        Some (last (split_ slash pathname_) EmptyString)
  | Throw _ =>
      (* Fallback for relative URLs *)
      let parts := split_ slash address in
      let filename := last parts EmptyString in
      let parts := removelast parts in
      if existsb (fun part => String.eqb part "api") parts
         || negb (includes filename ".")
         || includes address "?"
      then None
      else Some filename
  end.

(** Steps 3 and 4 of [analyzePage]: the names of the files behind the
    addresses, or the placeholder. *)
Definition listFiles (addresses : list string) : list string :=
  let files := keepTruthy (map fileEntry addresses) in
  if (List.length files =? 0)%nat then (files ++ ["None found"])%list else files.

(** [findJavaScriptFiles(debugMode)] and [findCSSFiles(debugMode)] of the
    file analyzer module: the same listing, with a trace.  [noun] and
    [label] are the words that differ between the two ("script" and "JS",
    "stylesheet" and "CSS"); [address] is [el.src] or [el.href]. *)
Definition analyzerLog (message : string) (data : list LogData) : M unit :=
  console_log ("%c[Tech Analyzer Debug] %c" ++ message)
    (DataString "color: #2b90d9; font-weight: bold;"
       :: DataString "color: inherit;" :: data).

Definition analyzerEntry (noun label : string) (debugMode : bool)
    (addressOf : Element -> string) (el : Element) : M (option string) :=
  let address := addressOf el in
  try_catch
    (url <- call (URL_ address) ;;
     let pathname_ := pathname url in
     if includes pathname_ "/api/"
        || includes pathname_ "/json"
        || nonEmpty (search url)
        || negb (includes pathname_ ".")
     then
       when debugMode (analyzerLog ("Skipping " ++ noun ++ ": " ++ address) []) ;;;
       ret None
     else
       let filename := last (split_ slash pathname_) EmptyString in
       when debugMode
         (analyzerLog ("Found " ++ label ++ " file: " ++ filename)
            [DataObject [("fullUrl", address);
                         ("element", slice0 100 (outerHTML el))]]) ;;;
       ret (Some filename))
    (fun _ =>
       let parts := split_ slash address in
       let filename := last parts EmptyString in
       let parts := removelast parts in
       if existsb (fun part => String.eqb part "api") parts
          || negb (includes filename ".")
          || includes address "?"
       then
         when debugMode
           (analyzerLog ("Skipping relative " ++ noun ++ ": " ++ address) []) ;;;
         ret None
       else
         when debugMode
           (analyzerLog ("Found relative " ++ label ++ " file: " ++ filename)
              [DataObject [("relativePath", address)]]) ;;;
         ret (Some filename)).

Definition analyzerFiles (noun label : string) (debugMode : bool)
    (addressOf : Element -> string) (elements : list Element) : M (list string) :=
  entries <- mapM (analyzerEntry noun label debugMode addressOf) elements ;;
  let files := keepTruthy entries in
  (* Ensure we always return something even if no files found *)
  if (List.length files =? 0)%nat then ret ["None found"] else ret files.

Definition findJavaScriptFiles (debugMode : bool) (d : Document) : M (list string) :=
  analyzerFiles "script" "JS" debugMode src (scriptTags d).

Definition findCSSFiles (debugMode : bool) (d : Document) : M (list string) :=
  analyzerFiles "stylesheet" "CSS" debugMode href (styleLinks d).


End Listing.

(** ** The clipboard *)

(** [clipboardData] *)
Module Clipboard.
Record t : Type := {
  jsFiles : list string;
  cssFiles : list string
}.
End Clipboard.

(** [copyAIPrompt()]: the text handed to [navigator.clipboard.writeText],
    or [None] when the function returns before writing. *)
Definition copyAIPrompt (clipboardData : Clipboard.t) : option string :=
  (* Filter out placeholder "None found" entries *)
  let allFiles :=
    filter (fun file => negb (String.eqb file "None found"))
           (Clipboard.jsFiles clipboardData ++ Clipboard.cssFiles clipboardData)%list in
  if (List.length allFiles =? 0)%nat then None
  else Some ("Give me a brief idea what these files are: "
               ++ String.concat ", " allFiles).

(** [updateClipboardButton()]: the value it gives [copyButton.disabled]. *)
Definition updateClipboardButton (clipboardData : Clipboard.t) : bool :=
  let listed (files : list string) :=
    match files with
    | [] => false
    | first :: _ => negb (String.eqb first "None found")
    end in
  let hasFiles :=
    listed (Clipboard.jsFiles clipboardData)
    || listed (Clipboard.cssFiles clipboardData) in
  negb hasFiles.

(** ** The report *)

(** The [findings] that [displayResults] receives: a property is [None]
    when the result object does not have it. *)
Module Shown.
Record t : Type := {
  jsFrameworks : option (list string);
  cssFrameworks : option (list string);
  jsFiles : option (list string);
  cssFiles : option (list string)
}.
End Shown.

Definition ofPage (findings : Page.t) : Shown.t :=
  {| Shown.jsFrameworks := Some (Page.jsFrameworks findings);
     Shown.cssFrameworks := Some (Page.cssFrameworks findings);
     Shown.jsFiles := Some (Page.jsFiles findings);
     Shown.cssFiles := Some (Page.cssFiles findings) |}.

(** [<tag class="cls">] *)
Definition openTag (tag cls : string) : string :=
  "<" ++ tag ++ " class=" ++ dquote ++ cls ++ dquote ++ ">".

Definition noResults : string :=
  openTag "span" "result-item" ++ "No results</span>".

(** [addResultSection(title, items, isListFormat)], acting on the
    variables [output] and [hasResults] of [displayResults]. *)
Definition addResultSection (title : string) (items : option (list string))
    (isListFormat : bool) (st : string * bool) : string * bool :=
  let output := fst st in
  let output := output ++ openTag "div" "result-group"
                  ++ "<strong>" ++ title ++ ":</strong><br>" in
  let output :=
    match items with
    | None | Some [] =>
        (* Handle empty or "None found" results *)
        output ++ noResults
    | Some ((first :: _) as items_) =>
        if (List.length items_ =? 1)%nat
           && (String.eqb first "None found" || String.eqb first "None detected")
        then output ++ noResults
        else if isListFormat
        then (* Format file lists as bulleted lists *)
          output ++ "<ul>"
            ++ String.concat EmptyString
                 (map (fun item => openTag "li" "result-item" ++ item ++ "</li>")
                      items_)
            ++ "</ul>"
        else (* Format frameworks as pill badges *)
          (output ++ openTag "div" "framework-results")
            ++ String.concat EmptyString
                 (map (fun item => openTag "div" "framework-item" ++ item ++ "</div>")
                      items_)
            ++ "</div>"
    end in
  (output ++ "</div>", true).

(** [displayResults(findings, options, reportEl)] of the single-file
    entry point: the new [reportEl.innerHTML], the new [clipboardData] and
    the new [copyButton.disabled]. *)
Definition displayResults (findings : Shown.t) (options : Options.t)
    (clipboardData : Clipboard.t) : string * Clipboard.t * bool :=
  let clipboardData :=
    match Shown.jsFiles findings with
    | Some files => {| Clipboard.jsFiles := files;
                       Clipboard.cssFiles := Clipboard.cssFiles clipboardData |}
    | None => clipboardData
    end in
  let clipboardData :=
    match Shown.cssFiles findings with
    | Some files => {| Clipboard.jsFiles := Clipboard.jsFiles clipboardData;
                       Clipboard.cssFiles := files |}
    | None => clipboardData
    end in
  let disabled := updateClipboardButton clipboardData in
  let st := (EmptyString, false) in
  let st := if Options.jsFrameworks options
            then addResultSection "JS Frameworks" (Shown.jsFrameworks findings) false st
            else st in
  let st := if Options.cssFrameworks options
            then addResultSection "CSS Frameworks" (Shown.cssFrameworks findings) false st
            else st in
  let st := if Options.listJS options
            then addResultSection "JavaScript files" (Shown.jsFiles findings) true st
            else st in
  let st := if Options.listCSS options
            then addResultSection "CSS files" (Shown.cssFiles findings) true st
            else st in
  (if snd st then fst st
   else openTag "div" "result-group" ++ "No analysis options selected.</div>",
   clipboardData, disabled).

(** ** The theme *)

(** [document.body.classList] and the [theme] key of
    [chrome.storage.local]. *)
Record ThemeState : Type := {
  classList : list string;
  storedTheme : option string
}.

(** A [DOMTokenList], as the list of its tokens. *)
Module DOMTokenList.

Definition contains (tokens : list string) (token : string) : bool :=
  existsb (String.eqb token) tokens.

Definition add (tokens : list string) (token : string) : list string :=
  if contains tokens token then tokens else (tokens ++ [token])%list.

Definition remove (tokens : list string) (token : string) : list string :=
  filter (fun t => negb (String.eqb token t)) tokens.

End DOMTokenList.

(** [toggleTheme()] *)
Definition toggleTheme (s : ThemeState) : ThemeState :=
  if DOMTokenList.contains (classList s) "dark-theme" then
    (* Switch to light theme *)
    {| classList :=
         DOMTokenList.add (DOMTokenList.remove (classList s) "dark-theme")
                          "light-theme";
       storedTheme := Some "light" |}
  else
    (* Switch to dark theme *)
    {| classList :=
         DOMTokenList.add (DOMTokenList.remove (classList s) "light-theme")
                          "dark-theme";
       storedTheme := Some "dark" |}.

(** [theme === value], [theme] being [undefined] when nothing is stored. *)
Definition themeIs (theme : option string) (value : string) : bool :=
  match theme with
  | Some t => String.eqb t value
  | None => false
  end.

(** The callback of [initializeTheme()], run with the stored theme.
    [prefersDark] is [None] when [window.matchMedia] is missing, else
    whether the system prefers a dark scheme. *)
Definition initializeTheme (prefersDark : option bool) (s : ThemeState) : ThemeState :=
  let theme := storedTheme s in
  if themeIs theme "dark" then
    {| classList := DOMTokenList.add (classList s) "dark-theme";
       storedTheme := theme |}
  else if themeIs theme "light" then
    {| classList := DOMTokenList.add (classList s) "light-theme";
       storedTheme := theme |}
  else if match prefersDark with Some matches => matches | None => false end then
    (* No saved preference, fall back to system preference *)
    {| classList := DOMTokenList.add (classList s) "dark-theme";
       storedTheme := theme |}
  else s.

(** The framework [f] with the signals [ss]. *)
Definition with_signals (f : Framework) (ss : list Signal) : Framework :=
  {| name := name f; confidence := confidence f;
     signals := ss; minConfidence := minConfidence f |}.

(** The selector that an attribute signal builds for a pattern matches
    some element of the page. *)
Definition attributeFound (d : Document) (pattern : string) : bool :=
  match querySelectorAll d ("[" ++ pattern ++ "],[data-" ++ pattern ++ "]") with
  | Normal els => (0 <? List.length els)%nat
  | Throw _ => false
  end.

(** A page that defines two of React's globals. *)
Definition twoGlobalsPage : Document :=
  {| window := fun g => if String.eqb g "React" then JSObject
                        else if String.eqb g "ReactDOM" then JSFunction
                        else JSUndefined;
     documentElement_outerHTML := "<html><head></head><body></body></html>";
     scriptTags := [];
     classElements := [];
     styleLinks := [];
     querySelectorAll := fun _ => Normal [] |}.

(** A page with an AngularJS root. *)
Definition angularPage : Document :=
  {| window := fun _ => JSUndefined;
     documentElement_outerHTML := "<html><head></head><body></body></html>";
     scriptTags := [];
     classElements := [];
     styleLinks := [];
     querySelectorAll := fun selector =>
       if String.eqb selector "[ng-app],[data-ng-app]"
       then Normal [divOfClass "app"]
       else Normal [] |}.

(** What a run of the loop over the frameworks has collected so far only
    grows at its end. *)
Definition extend (names : list string) (visited : list Framework)
    (r : Completion (list string * list Framework) * Console)
  : Completion (list string * list Framework) * Console :=
  match r with
  | (Normal (names', visited'), c) =>
      (Normal ((names ++ names')%list, (visited ++ visited')%list), c)
  | (Throw e, c) => (Throw e, c)
  end.

(** ** The listing functions declared inside [analyzePage] by the
       modular entry point *)

(** [s.endsWith(suffix)] *)
Fixpoint endsWith (s suffix : string) : bool :=
  String.eqb s suffix
  || match s with
     | EmptyString => false
     | String _ s' => endsWith s' suffix
     end.

(** [s] without its first [n] characters. *)
Fixpoint drop (n : nat) (s : string) : string :=
  match n, s with
  | O, _ => s
  | S _, EmptyString => EmptyString
  | S n', String _ s' => drop n' s'
  end.

(** [s.replace(pattern, replacement)] for a string pattern: the first
    occurrence is replaced. *)
Fixpoint replace_ (s pattern replacement : string) : string :=
  if startsWith s pattern then replacement ++ drop (String.length pattern) s
  else match s with
       | EmptyString => EmptyString
       | String a s' => String a (replace_ s' pattern replacement)
       end.

(** [e.message] *)
Definition message (e : Exn) : string :=
  match e with
  | SyntaxError m | SecurityError m | TypeError m | Error_ m => m
  end.

(** [list.filter(filename => ...)] with the set [uniqueFilenames]: [null]
    and the empty string are dropped, and so is a name already seen. *)
Fixpoint uniqueTruthy (uniqueFilenames : list string) (l : list (option string))
  : list string :=
  match l with
  | [] => []
  | None :: rest => uniqueTruthy uniqueFilenames rest
  | Some filename :: rest =>
      if negb (nonEmpty filename) then uniqueTruthy uniqueFilenames rest
      else if existsb (String.eqb filename) uniqueFilenames
      then uniqueTruthy uniqueFilenames rest
      else filename :: uniqueTruthy (filename :: uniqueFilenames) rest
  end.

(** [set.add(x)] on a set kept as the list of its elements. *)
Definition setAdd (set : list string) (x : string) : list string :=
  if existsb (String.eqb x) set then set else (set ++ [x])%list.

Module Injected.

(** Common CSS filenames to always include, even if they'd be filtered *)
Definition importantCssPatterns : list string :=
  ["style.min.css"; "main.css"; "styles.css"; "bundle.css"; "app.css"; "theme.css"].

(** [debugInfo]; an entry of [skipped] is its [url] and its [reason]. *)
Record DebugInfo : Type := {
  allStylesheets : list string;
  filtered : list string;
  errors : list string;
  skipped : list (string * string)
}.

Definition push_allStylesheets (i : DebugInfo) (x : string) : DebugInfo :=
  {| allStylesheets := (allStylesheets i ++ [x])%list; filtered := filtered i;
     errors := errors i; skipped := skipped i |}.

Definition push_filtered (i : DebugInfo) (x : string) : DebugInfo :=
  {| allStylesheets := allStylesheets i; filtered := (filtered i ++ [x])%list;
     errors := errors i; skipped := skipped i |}.

Definition push_errors (i : DebugInfo) (x : string) : DebugInfo :=
  {| allStylesheets := allStylesheets i; filtered := filtered i;
     errors := (errors i ++ [x])%list; skipped := skipped i |}.

Definition push_skipped (i : DebugInfo) (x : string * string) : DebugInfo :=
  {| allStylesheets := allStylesheets i; filtered := filtered i;
     errors := errors i; skipped := (skipped i ++ [x])%list |}.

Section InPage.

(** [options], and what the functions read of the page besides the
    document: the [URL] constructor, the [href] attribute of a stylesheet
    link as written in the markup ([link.getAttribute('href')], a string
    since the links are selected by [[href]]), and for each sheet of
    [document.styleSheets] what reading [sheet.href] gives: a string,
    [null] or an exception. *)
Variable options : Options.t.
Variable URL_ : string -> Completion URL.
Variable getAttribute_href : Element -> string.
Variable styleSheets : list (Completion (option string)).

(** [l.map(x => ...)] for a callback that logs and updates [debugInfo]. *)
Fixpoint mapWith {A B} (f : DebugInfo -> A -> M (B * DebugInfo))
    (debugInfo : DebugInfo) (l : list A) : M (list B * DebugInfo) :=
  match l with
  | [] => ret ([], debugInfo)
  | x :: l' =>
      r <- f debugInfo x ;;
      rs <- mapWith f (snd r) l' ;;
      ret (fst r :: fst rs, snd rs)
  end.

(** The [for (const sheet of document.styleSheets)] loop. *)
Fixpoint loadedSheets (sheets : list (Completion (option string)))
    (st : list string * DebugInfo) : list string * DebugInfo :=
  match sheets with
  | [] => st
  | sheet :: rest =>
      let (styleSheetUrls, debugInfo) := st in
      loadedSheets rest
        match sheet with
        | Normal (Some href_) =>
            if nonEmpty href_
            then (setAdd styleSheetUrls href_,
                  if Options.debugMode options
                  then push_allStylesheets debugInfo href_ else debugInfo)
            else st
        | Normal None => st
        | Throw e =>
            (styleSheetUrls,
             if Options.debugMode options
             then push_errors debugInfo ("Error accessing stylesheet: " ++ message e)
             else debugInfo)
        end
  end.

(** The callback of [stylesheets.map] in [findCSSFiles]. *)
Definition cssLink (debugInfo : DebugInfo) (link : Element)
  : M (option string * DebugInfo) :=
  try_catch
    (let href_ := toLowerCase (href link) in
     (* Always include important CSS files regardless of filters *)
     match find (fun pattern => includes href_ pattern) importantCssPatterns with
     | Some pattern =>
         let filename := pattern in
         when (Options.debugMode options)
           (debugLog options ("Found important CSS file: " ++ filename)
              (Some (DataObject [("fullUrl", href link);
                                 ("reason", "Matched important pattern")]))) ;;;
         ret (Some filename, debugInfo)
     | None =>
         url <- call (URL_ (href link)) ;;
         let pathname_ := pathname url in
         (* Skip API calls and non-CSS URLs *)
         if includes pathname_ "/api/"
            || includes pathname_ "/json"
            || (negb (endsWith (toLowerCase pathname_) ".css")
                && negb (includes pathname_ ".css"))
         then
           if Options.debugMode options then
             debugLog options ("Skipping non-CSS resource: " ++ href link) None ;;;
             ret (None, push_skipped debugInfo (href link, "Not a CSS file"))
           else ret (None, debugInfo)
         else
           let filename := last (split_ slash pathname_) EmptyString in
           (* Handle URLs that might not have a proper filename *)
           let filename :=
             if negb (nonEmpty filename) || negb (includes filename ".")
             then replace_ (hostname url) "www." EmptyString ++ "-stylesheet.css"
             else filename in
           if Options.debugMode options then
             debugLog options ("Found CSS file: " ++ filename)
               (Some (DataObject [("fullUrl", href link);
                                  ("element", slice0 100 (outerHTML link))])) ;;;
             ret (Some filename, push_filtered debugInfo filename)
           else ret (Some filename, debugInfo)
     end)
    (fun _ =>
       (* Fallback for relative URLs *)
       let href_ := getAttribute_href link in
       if negb (nonEmpty href_) then ret (None, debugInfo)
       else
         let href_ := toLowerCase href_ in
         match find (fun pattern => includes href_ pattern) importantCssPatterns with
         | Some pattern =>
             let filename := pattern in
             when (Options.debugMode options)
               (debugLog options ("Found important relative CSS file: " ++ filename)
                  (Some (DataObject [("href", getAttribute_href link);
                                     ("reason", "Matched important pattern")]))) ;;;
             ret (Some filename, debugInfo)
         | None =>
             let parts := split_ slash href_ in
             let filename := last parts EmptyString in
             (* Handle endpoints without extensions *)
             if negb (nonEmpty filename) || negb (includes filename ".css") then
               if Options.debugMode options then
                 debugLog options ("Skipping non-CSS relative URL: " ++ href_) None ;;;
                 ret (None, push_skipped debugInfo (href_, "Not a CSS file"))
               else ret (None, debugInfo)
             else
               if Options.debugMode options then
                 debugLog options ("Found relative CSS file: " ++ filename)
                   (Some (DataObject [("relativePath", href_)])) ;;;
                 ret (Some filename, push_filtered debugInfo filename)
               else ret (Some filename, debugInfo)
         end).

(** [findCSSFiles()].  In the summary line the properties of the logged
    object that hold arrays are shown with their elements joined by
    commas, a skipped entry as its [url] and [reason]. *)
Definition findCSSFiles (d : Document) : M (list string) :=
  let debugInfo := {| allStylesheets := []; filtered := []; errors := [];
                      skipped := [] |} in
  let stylesheets := styleLinks d in
  when (Options.debugMode options)
    (debugLog options
       ("Found " ++ ofNat (List.length stylesheets) ++ " stylesheet links")
       (Some (DataDetails
                (map (fun link => DetailString (getAttribute_href link))
                     stylesheets)))) ;;;
  let (styleSheetUrls, debugInfo) := loadedSheets styleSheets ([], debugInfo) in
  r <- mapWith cssLink debugInfo stylesheets ;;
  let debugInfo := snd r in
  (* Remove nulls and ensure uniqueness *)
  let cssFiles := uniqueTruthy [] (fst r) in
  when (Options.debugMode options)
    (debugLog options "CSS file detection summary:"
       (Some (DataObject
          [("totalStylesheetLinks", ofNat (List.length stylesheets));
           ("totalLoadedStylesheets", ofNat (List.length styleSheetUrls));
           ("filteredResults", ofNat (List.length cssFiles));
           ("allStylesheets", String.concat "," (allStylesheets debugInfo));
           ("filteredFiles", String.concat "," (filtered debugInfo));
           ("skippedFiles",
            String.concat ","
              (map (fun x => fst x ++ ": " ++ snd x) (skipped debugInfo)));
           ("errors", String.concat "," (errors debugInfo))]))) ;;;
  (* Ensure we always return something even if no files found *)
  if (List.length cssFiles =? 0)%nat then ret ["None found"] else ret cssFiles.

(** The callback of [.map] in [findJavaScriptFiles]. *)
Definition jsScript (script : Element) : M (option string) :=
  try_catch
    (url <- call (URL_ (src script)) ;;
     let pathname_ := pathname url in
     (* Skip API calls and non-file URLs *)
     if includes pathname_ "/api/"
        || includes pathname_ "/json"
        || nonEmpty (search url)
        || negb (includes pathname_ ".")
     then
       when (Options.debugMode options)
         (debugLog options ("Skipping script: " ++ src script) None) ;;;
       ret None
     else
       let filename := last (split_ slash pathname_) EmptyString in
       when (Options.debugMode options)
         (debugLog options ("Found JS file: " ++ filename)
            (Some (DataObject [("fullUrl", src script);
                               ("element", slice0 100 (outerHTML script))]))) ;;;
       ret (Some filename))
    (fun _ =>
       let parts := split_ slash (src script) in
       let filename := last parts EmptyString in
       let parts := removelast parts in
       if existsb (fun part => String.eqb part "api") parts
          || negb (includes filename ".")
          || includes (src script) "?"
       then
         when (Options.debugMode options)
           (debugLog options ("Skipping relative script: " ++ src script) None) ;;;
         ret None
       else
         when (Options.debugMode options)
           (debugLog options ("Found relative JS file: " ++ filename)
              (Some (DataObject [("relativePath", src script)]))) ;;;
         ret (Some filename)).

(** [findJavaScriptFiles()] *)
Definition findJavaScriptFiles (d : Document) : M (list string) :=
  entries <- mapM jsScript (scriptTags d) ;;
  let jsFiles := keepTruthy entries in
  if (List.length jsFiles =? 0)%nat then ret ["None found"] else ret jsFiles.

(** What [cssLink] returns for a link, apart from the trace. *)
Definition cssEntry (link : Element) : option string :=
  match find (fun pattern => includes (toLowerCase (href link)) pattern)
             importantCssPatterns with
  | Some pattern => Some pattern
  | None =>
      match URL_ (href link) with
      | Normal url =>
          if includes (pathname url) "/api/"
             || includes (pathname url) "/json"
             || (negb (endsWith (toLowerCase (pathname url)) ".css")
                 && negb (includes (pathname url) ".css"))
          then None
          else
            let filename := last (split_ slash (pathname url)) EmptyString in
            Some (if negb (nonEmpty filename) || negb (includes filename ".")
                  then replace_ (hostname url) "www." EmptyString ++ "-stylesheet.css"
                  else filename)
      | Throw _ =>
          if negb (nonEmpty (getAttribute_href link)) then None
          else
            let href_ := toLowerCase (getAttribute_href link) in
            match find (fun pattern => includes href_ pattern)
                       importantCssPatterns with
            | Some pattern => Some pattern
            | None =>
                let filename := last (split_ slash href_) EmptyString in
                if negb (nonEmpty filename) || negb (includes filename ".css")
                then None else Some filename
            end
      end
  end.

End InPage.

End Injected.

(** A page whose only stylesheet is served from an API path and is named
    [domain.css]. *)
Definition domainSheetPage : Document :=
  {| window := fun _ => JSUndefined;
     documentElement_outerHTML :=
       "<html><head>"
         ++ outerHTML (styleLink "https://example.com/api/domain.css")
         ++ "</head><body></body></html>";
     scriptTags := [];
     classElements := [];
     styleLinks := [styleLink "https://example.com/api/domain.css"];
     querySelectorAll := fun _ => Normal [] |}.

(** A parser that knows the address of that stylesheet. *)
Definition exampleURL (address : string) : Completion URL :=
  if String.eqb address "https://example.com/api/domain.css"
  then Normal {| pathname := "/api/domain.css"; search := EmptyString;
                 hostname := "example.com" |}
  else Throw (TypeError "Invalid URL").

(** ** The lines of the debug trace *)





(** ** Sample addresses and states *)

(** A browser context in which no address parses (a page without a base
    address, relative addresses). *)
Definition noURL (address : string) : Completion URL :=
  Throw (TypeError "Invalid URL").

(** A parser that knows one address. *)
Definition cdnURL (address : string) : Completion URL :=
  if String.eqb address "https://cdn.example.com/react.min.js"
  then Normal {| pathname := "/react.min.js"; search := EmptyString;
                 hostname := "cdn.example.com" |}
  else Throw (TypeError "Invalid URL").

Definition filesOnly : Options.t :=
  {| Options.jsFrameworks := false; Options.cssFrameworks := false;
     Options.listJS := true; Options.listCSS := true;
     Options.debugMode := false |}.

Definition nothingSelected : Options.t :=
  {| Options.jsFrameworks := false; Options.cssFrameworks := false;
     Options.listJS := false; Options.listCSS := false;
     Options.debugMode := false |}.

Definition someFiles : Clipboard.t :=
  {| Clipboard.jsFiles := ["react.min.js"; "app.js"];
     Clipboard.cssFiles := ["None found"] |}.

Definition freshBody : ThemeState :=
  {| classList := ["popup"]; storedTheme := None |}.

(* ================================================================== *)
(** * String facts *)

Example toLowerCase_ex : toLowerCase "React.MIN.js" = "react.min.js".
Proof. reflexivity. Qed.

Example includes_ex :
  includes "https://cdn.example.com/react.min.js" "react.min.js" = true.
Proof. reflexivity. Qed.

Example indexOf_ex : indexOf "abcabc" "ca" = Some 2%nat.
Proof. reflexivity. Qed.

Lemma startsWith_toLowerCase (s p : string) :
  startsWith s p = true -> startsWith (toLowerCase s) (toLowerCase p) = true.
Proof.
  revert s. induction p as [|b p IH]; intros [|a s]; simpl; auto.
  intros H. apply andb_true_iff in H as [Hab Hs].
  apply Ascii.eqb_eq in Hab. subst b.
  rewrite Ascii.eqb_refl. simpl. auto.
Qed.

Lemma includes_toLowerCase (s p : string) :
  includes s p = true -> includes (toLowerCase s) (toLowerCase p) = true.
Proof.
  induction s as [|a s IH]; intros H.
  - destruct p; [reflexivity | discriminate H].
  - change (startsWith (String a s) p || includes s p = true) in H.
    change (startsWith (toLowerCase (String a s)) (toLowerCase p)
            || includes (toLowerCase s) (toLowerCase p) = true).
    apply orb_true_iff in H as [H|H].
    + now rewrite (startsWith_toLowerCase _ _ H).
    + rewrite (IH H). apply orb_true_r.
Qed.

Lemma toLowerCase_empty (p : string) : toLowerCase p = EmptyString -> p = EmptyString.
Proof. destruct p; simpl; [reflexivity | discriminate]. Qed.

Lemma includes_nonEmpty (s q : string) :
  q <> EmptyString -> includes s q = true -> nonEmpty s = true.
Proof.
  intros Hq H. destruct s as [|a s]; [|reflexivity].
  destruct q as [|b q]; [congruence|]. simpl in H. discriminate.
Qed.

(* ================================================================== *)
(** * Reasoning about runs *)

Lemma wp_ret {A} (a : A) (Q : A -> Console -> Prop) c : Q a c -> wp (ret a) Q c.
Proof. exact (fun H => H). Qed.

Lemma wp_bind {A B} (m : M A) (k : A -> M B) (Q : B -> Console -> Prop) c :
  wp m (fun a c' => wp (k a) Q c') c -> wp (bind m k) Q c.
Proof.
  unfold wp, bind. destruct (m c) as [[a|e] c']; auto.
Qed.

Lemma wp_mono {A} (m : M A) (Q Q' : A -> Console -> Prop) c :
  (forall a c', Q a c' -> Q' a c') -> wp m Q c -> wp m Q' c.
Proof.
  unfold wp. intros HQ. destruct (m c) as [[a|e] c']; auto.
Qed.

Lemma wp_run {A} (m : M A) (Q : A -> Console -> Prop) c :
  wp m Q c <-> exists a c', m c = (Normal a, c') /\ Q a c'.
Proof.
  unfold wp. split.
  - destruct (m c) as [[a|e] c']; [eauto | contradiction].
  - intros (a & c' & -> & H). exact H.
Qed.

Lemma set_confidence_id (f : Framework) : set_confidence f (confidence f) = f.
Proof. destruct f; reflexivity. Qed.

Lemma bumped_refl (f : Framework) : bumped 0 f f.
Proof. unfold bumped. rewrite Z.add_0_r. symmetry. apply set_confidence_id. Qed.

Lemma bumped_trans (x y : Z) (f g h : Framework) :
  bumped x f g -> bumped y g h -> bumped (x + y) f h.
Proof.
  unfold bumped. intros -> ->. unfold set_confidence; simpl.
  f_equal. lia.
Qed.

Lemma bumped_fire (w : Z) ds (a : Acc) : bumped w (fst a) (fst (fire w ds a)).
Proof. reflexivity. Qed.

(** A loop whose every turn bumps the confidence by [g x], and is silent
    when [quiet] holds, bumps it by the sum, and is silent. *)
Lemma wp_forEach_bumped {S A} (proj : S -> Framework) (f : S -> A -> M S)
    (g : A -> Z) (quiet : Prop) :
  (forall s x c,
      wp (f s x) (fun s' c' => bumped (g x) (proj s) (proj s')
                               /\ (quiet -> c' = c)) c) ->
  forall l s c,
    wp (forEach f l s)
       (fun s' c' => bumped (sumZ (map g l)) (proj s) (proj s')
                     /\ (quiet -> c' = c)) c.
Proof.
  intros Hf. induction l as [|x l IH]; intros s c; simpl.
  - apply wp_ret. split; [apply bumped_refl | reflexivity].
  - apply wp_bind. eapply wp_mono; [|apply Hf].
    intros s1 c1 [Hb Hq]. eapply wp_mono; [|apply IH].
    intros s2 c2 [Hb2 Hq2]. split.
    + eapply bumped_trans; eassumption.
    + intros q. rewrite (Hq2 q). auto.
Qed.

(* ================================================================== *)
(** * The engine computes the scores *)

Section Runs.

Variable options : Options.t.
Variable document : Document.
Variable entry : EntryPoint.

(** No trace is asked for. *)
Let quiet : Prop := Options.debugMode options = false.

(** What a step does to the accumulator and the console: the confidence
    moves by [z], nothing is logged when debug mode is off. *)
Let stepPost (z : Z) (a : Acc) (c : Console) : Acc -> Console -> Prop :=
  fun a' c' => bumped z (fst a) (fst a') /\ (quiet -> c' = c).

Ltac branches :=
  repeat match goal with
         | |- context [if ?b then _ else _] => destruct b eqn:?
         | |- context [match ?x with Some _ => _ | None => _ end] => destruct x eqn:?
         | |- context [match ?x with Normal _ => _ | Throw _ => _ end] => destruct x eqn:?
         end.

Ltac finish :=
  simpl; try contradiction;
  split;
  [ first [ apply bumped_refl | apply bumped_fire | reflexivity ]
  | first [ reflexivity | intros; congruence | intros; discriminate ] ].

Lemma debugLog_run (message : string) (data : option LogData) (c : Console) :
  wp (debugLog options message data) (fun _ c' => quiet -> c' = c) c.
Proof.
  subst quiet. unfold wp, debugLog, console_log, ret.
  destruct (Options.debugMode options); simpl; [discriminate | reflexivity].
Qed.

Lemma globalPattern_run (signal : Signal) (a : Acc) (pattern : string) (c : Console) :
  wp (globalPattern options document signal a pattern)
     (stepPost (globalWeight document signal pattern) a c) c.
Proof.
  subst stepPost quiet.
  unfold wp, globalPattern, globalWeight, ret. branches; finish.
Qed.

Lemma filePattern_run (signal : Signal) (a : Acc) (pattern : string) (c : Console) :
  wp (filePattern options signal (scriptTags document)
        (map (fun tag => toLowerCase (src tag)) (scriptTags document))
        (toLowerCase (documentElement_outerHTML document)) a pattern)
     (stepPost (fileWeight document signal pattern) a c) c.
Proof.
  subst stepPost quiet.
  unfold wp, filePattern, fileWeight, sourceWeight, debugLog, console_log, bind, ret.
  branches; finish.
Qed.

Lemma attributePattern_run (signal : Signal) (a : Acc) (pattern : string) (c : Console) :
  wp (attributePattern options document signal a pattern)
     (stepPost (attributeWeight document signal pattern) a c) c.
Proof.
  subst stepPost quiet.
  unfold wp, attributePattern, attributeWeight, try_catch, call, debugLog,
    console_log, bind, ret.
  branches; finish.
Qed.

Lemma classScan_bumped (signal : Signal) (pattern : string)
    (elements foundElements : list Element) (a : Acc) :
  bumped (if existsb (classMatches pattern) elements then weight signal else 0)
         (fst a)
         (fst (snd (classScan signal (toLowerCase pattern) elements foundElements a))).
Proof.
  induction elements as [|el rest IH]; simpl.
  - apply bumped_refl.
  - unfold classMatches at 1.
    destruct (includes (toLowerCase (classText el)) (toLowerCase pattern)); simpl.
    + reflexivity.
    + exact IH.
Qed.

Lemma classPattern_run (signal : Signal) (a : Acc) (pattern : string) (c : Console) :
  wp (classPattern options document signal a pattern)
     (stepPost (classWeight document signal pattern) a c) c.
Proof.
  subst stepPost quiet.
  unfold wp, classPattern, classWeight.
  pose proof (classScan_bumped signal pattern (classElements document) [] a) as Hb.
  destruct (classScan signal (toLowerCase pattern) (classElements document) [] a)
    as [foundElements a1].
  simpl in Hb. unfold ret.
  destruct (0 <? List.length foundElements)%nat;
    [destruct foundElements as [|first rest];
     [|destruct (Options.debugMode options)]|];
    simpl; (split; [exact Hb | reflexivity]).
Qed.

Lemma patternSignal_run (ty : string) (step : Signal -> Acc -> string -> M Acc)
    (w : Signal -> string -> Z) (signal : Signal) :
  (forall a p c, wp (step signal a p) (stepPost (w signal p) a c) c) ->
  forall a c,
    wp (patternSignal ty step signal a) (stepPost (patternsWeight ty w signal) a c) c.
Proof.
  intros Hstep a c. unfold patternSignal, patternsWeight.
  destruct (String.eqb (type signal) ty);
    [destruct (patterns signal) as [ps|]|];
    try (apply wp_ret; split; [apply bumped_refl | reflexivity]).
  apply (wp_forEach_bumped (fun s : Acc => fst s) (step signal) (w signal) quiet Hstep).
Qed.

Lemma fileSignal_run (signal : Signal) (a : Acc) (c : Console) :
  wp (fileSignal options document signal a)
     (stepPost (patternsWeight "file" (fileWeight document) signal) a c) c.
Proof.
  unfold fileSignal, patternsWeight.
  destruct (String.eqb (type signal) "file");
    [destruct (patterns signal) as [ps|]|];
    try (apply wp_ret; split; [apply bumped_refl | reflexivity]).
  apply (wp_forEach_bumped (fun s : Acc => fst s) _ (fileWeight document signal) quiet).
  intros; apply filePattern_run.
Qed.

Lemma predicateSignal_run (ty passed : string) (signal : Signal) (a : Acc) (c : Console) :
  wp (predicateSignal document ty passed signal a)
     (stepPost (predicateWeight document ty signal) a c) c.
Proof.
  subst stepPost quiet.
  unfold wp, predicateSignal, predicateWeight, try_catch, call, bind, ret.
  branches; finish.
Qed.

Ltac next H :=
  apply wp_bind; eapply wp_mono; [|apply H];
  let a := fresh "a" in
  let c := fresh "c" in
  let Hb := fresh "Hb" in
  let Hq := fresh "Hq" in
  intros a c [Hb Hq]; simpl in Hb.

Lemma evalSignal_run (st : Framework * list SignalResults) (signal : Signal)
    (c : Console) :
  wp (evalSignal options document entry st signal)
     (fun st' c' => bumped (signalScore document entry signal) (fst st) (fst st')
                    /\ (quiet -> c' = c)) c.
Proof.
  destruct st as [framework detectionDetails]. unfold evalSignal, signalScore.
  next (patternSignal_run "global" (globalPattern options document)
          (globalWeight document) signal (fun a p c => globalPattern_run signal a p c)).
  next fileSignal_run.
  next (patternSignal_run "attribute" (attributePattern options document)
          (attributeWeight document) signal
          (fun a p c => attributePattern_run signal a p c)).
  next (patternSignal_run "class" (classPattern options document)
          (classWeight document) signal (fun a p c => classPattern_run signal a p c)).
  next predicateSignal_run.
  assert (Hpred : forall ty passed x cx,
    wp match entry with
       | SingleFile => predicateSignal document ty passed signal x
       | Modular => ret x
       end
       (stepPost match entry with
                 | SingleFile => predicateWeight document ty signal
                 | Modular => 0
                 end x cx) cx).
  { intros ty passed x cx. destruct entry.
    - apply predicateSignal_run.
    - apply wp_ret. split; [apply bumped_refl | reflexivity]. }
  next Hpred. next Hpred.
  apply wp_ret. simpl. split.
  - repeat (eapply bumped_trans; [|eassumption]). assumption.
  - intros q. rewrite Hq5, Hq4, Hq3, Hq2, Hq1, Hq0, Hq by exact q. reflexivity.
Qed.

End Runs.

Section Passes.

Variable options : Options.t.
Variable document : Document.
Variable entry : EntryPoint.

Let quiet : Prop := Options.debugMode options = false.

Lemma wp_forEach_total {S A} (f : S -> A -> M S) :
  (forall s x c, wp (f s x) (fun _ _ => True) c) ->
  forall l s c, wp (forEach f l s) (fun _ _ => True) c.
Proof.
  intros Hf. induction l as [|x l IH]; intros s c; simpl.
  - exact I.
  - apply wp_bind. eapply wp_mono; [|apply Hf]. intros; apply IH.
Qed.

Lemma debugLog_total (message : string) (data : option LogData) (c : Console) :
  wp (debugLog options message data) (fun _ _ => True) c.
Proof.
  eapply wp_mono; [|apply debugLog_run]. auto.
Qed.

(** The trace of a detected framework: written in debug mode only. *)
Lemma when_debug_run (m : M unit) (c : Console) :
  (forall c0, wp m (fun _ _ => True) c0) ->
  wp (when (Options.debugMode options) m) (fun _ c' => quiet -> c' = c) c.
Proof.
  intros Hm. subst quiet. unfold when.
  destruct (Options.debugMode options).
  - eapply wp_mono; [|apply Hm]. intros; discriminate.
  - apply wp_ret. reflexivity.
Qed.

Lemma evalFramework_run (detectedFrameworks : list string) (visited : list Framework)
    (framework : Framework) (c : Console) :
  wp (evalFramework options document entry (detectedFrameworks, visited) framework)
     (fun r c' =>
        r = ((detectedFrameworks
                ++ (if meetsThreshold document entry framework
                    then [name framework] else []))%list,
             (visited
                ++ [set_confidence framework
                      (frameworkScore document entry framework)])%list)
        /\ (quiet -> c' = c)) c.
Proof.
  unfold evalFramework. apply wp_bind.
  eapply wp_mono;
    [|apply (wp_forEach_bumped (fun s : Framework * list SignalResults => fst s)
               (evalSignal options document entry)
               (signalScore document entry) quiet
               (evalSignal_run options document entry))].
  intros [framework1 detectionDetails] c1 [Hb Hq]. simpl in Hb.
  unfold bumped in Hb. simpl in Hb. subst framework1.
  change (sumZ (map (signalScore document entry) (signals framework)))
    with (frameworkScore document entry framework).
  unfold meetsThreshold.
  cbn [minConfidence confidence set_confidence name].
  destruct (minConfidence framework <=? frameworkScore document entry framework).
  - apply wp_bind. eapply wp_mono; [|apply when_debug_run].
    + intros u c2 Hq2. apply wp_ret. split; [reflexivity|].
      intros q. rewrite (Hq2 q). auto.
    + intros c0. apply wp_bind. eapply wp_mono; [|apply debugLog_total].
      intros u3 c3 _. apply wp_bind.
      eapply wp_mono; [|apply wp_forEach_total; intros; apply debugLog_total].
      intros u4 c4 _. exact I.
  - apply wp_ret. rewrite app_nil_r. split; [reflexivity | exact Hq].
Qed.

Lemma forEach_evalFramework_run (frameworkList : list Framework) :
  forall (detectedFrameworks : list string) (visited : list Framework) (c : Console),
    wp (forEach (evalFramework options document entry) frameworkList
          (detectedFrameworks, visited))
       (fun r c' =>
          r = ((detectedFrameworks ++ detectedNames document entry frameworkList)%list,
               (visited ++ scored document entry frameworkList)%list)
          /\ (quiet -> c' = c)) c.
Proof.
  induction frameworkList as [|f fl IH]; intros names visited c; simpl.
  - apply wp_ret. unfold detectedNames, scored. simpl.
    rewrite !app_nil_r. split; reflexivity.
  - apply wp_bind. eapply wp_mono; [|apply evalFramework_run].
    intros r c1 [-> Hq]. eapply wp_mono; [|apply IH].
    intros r2 c2 [-> Hq2]. split.
    + unfold detectedNames, scored. simpl.
      destruct (meetsThreshold document entry f); simpl;
        rewrite <- !app_assoc; reflexivity.
    + intros q. rewrite (Hq2 q). auto.
Qed.

(** One pass returns the names of the frameworks whose score meets
    their threshold, in the order of the list, and leaves every score in
    its framework. *)
Lemma getDetectedFrameworks_run (frameworkList : list Framework) (c : Console) :
  wp (getDetectedFrameworks options document entry frameworkList)
     (fun r c' =>
        r = (detectedNames document entry frameworkList,
             scored document entry frameworkList)
        /\ (quiet -> c' = c)) c.
Proof.
  unfold getDetectedFrameworks.
  eapply wp_mono; [|apply forEach_evalFramework_run]. auto.
Qed.

Lemma detectFamily_run (enabled : bool) (frameworkList : list Framework) (c : Console) :
  wp (detectFamily options document entry enabled frameworkList)
     (fun r c' =>
        r = (if enabled
             then (match detectedNames document entry frameworkList with
                   | [] => [sentinel]
                   | names => names
                   end,
                   scored document entry frameworkList)
             else ([], frameworkList))
        /\ (quiet -> c' = c)) c.
Proof.
  unfold detectFamily. destruct enabled.
  - apply wp_bind. eapply wp_mono; [|apply getDetectedFrameworks_run].
    intros r c1 [-> Hq]. simpl.
    destruct (detectedNames document entry frameworkList); simpl;
      apply wp_ret; split; auto.
  - apply wp_ret. split; reflexivity.
Qed.

End Passes.

(* ================================================================== *)
(** * [detectFrameworks] *)

Lemma detectFrameworks_run (options : Options.t) (d : Document) (entry : EntryPoint)
    (catalog : Catalog) (c : Console) :
  wp (detectFrameworks options d entry catalog)
     (fun r c' =>
        r = ({| Findings.jsFrameworks :=
                  reported (Options.jsFrameworks options) d entry (js catalog);
                Findings.cssFrameworks :=
                  reported (Options.cssFrameworks options) d entry (css catalog) |},
             catalogAfter options d entry catalog)
        /\ (Options.debugMode options = false -> c' = c)) c.
Proof.
  unfold detectFrameworks, catalogAfter, reported.
  apply wp_bind. eapply wp_mono; [|apply detectFamily_run].
  intros j c1 [-> Hq1].
  apply wp_bind. eapply wp_mono; [|apply detectFamily_run].
  intros k c2 [-> Hq2].
  apply wp_ret. split.
  - destruct (Options.jsFrameworks options), (Options.cssFrameworks options);
      reflexivity.
  - intros q. rewrite (Hq2 q). auto.
Qed.

(** The score of a framework does not look at its [confidence] field. *)
Lemma frameworkScore_set_confidence d entry (f : Framework) (z : Z) :
  frameworkScore d entry (set_confidence f z) = frameworkScore d entry f.
Proof. reflexivity. Qed.

Lemma meetsThreshold_set_confidence d entry (f : Framework) (z : Z) :
  meetsThreshold d entry (set_confidence f z) = meetsThreshold d entry f.
Proof. reflexivity. Qed.

Lemma detectedNames_scored d entry (fl : list Framework) :
  detectedNames d entry (scored d entry fl) = detectedNames d entry fl.
Proof.
  unfold detectedNames, scored.
  induction fl as [|f fl IH]; [reflexivity|].
  cbn [map filter]. rewrite meetsThreshold_set_confidence.
  destruct (meetsThreshold d entry f); cbn [map]; now rewrite IH.
Qed.

Lemma scored_scored d entry (fl : list Framework) :
  scored d entry (scored d entry fl) = scored d entry fl.
Proof.
  unfold scored. rewrite map_map. apply map_ext. intros f. reflexivity.
Qed.

(** After a pass, the stored confidence decides the report. *)
Lemma detectedNames_stored d entry (fl : list Framework) :
  detectedNames d entry fl
  = map name (filter (fun f => minConfidence f <=? confidence f) (scored d entry fl)).
Proof.
  unfold detectedNames, scored.
  induction fl as [|f fl IH]; [reflexivity|].
  cbn [map filter minConfidence confidence set_confidence].
  unfold meetsThreshold at 1.
  destruct (minConfidence f <=? frameworkScore d entry f); cbn [map]; now rewrite IH.
Qed.

(* ================================================================== *)
(** * Names in a list of frameworks *)

Section Names.

Variable P : Framework -> bool.

Lemma name_injective (l : list Framework) (f g : Framework) :
  NoDup (map name l) -> In f l -> In g l -> name f = name g -> f = g.
Proof.
  induction l as [|h l IH]; simpl; [contradiction|].
  intros Hnd Hf Hg Hname. inversion Hnd as [|x xs Hnotin Hnd']; subst.
  destruct Hf as [<-|Hf], Hg as [<-|Hg]; auto.
  - exfalso. apply Hnotin. rewrite Hname. now apply in_map.
  - exfalso. apply Hnotin. rewrite <- Hname. now apply in_map.
Qed.

Lemma NoDup_names_filter (l : list Framework) :
  NoDup (map name l) -> NoDup (map name (filter P l)).
Proof.
  induction l as [|h l IH]; simpl; intros Hnd; [constructor|].
  inversion Hnd as [|x xs Hnotin Hnd']; subst.
  destruct (P h); simpl; auto.
  constructor; auto.
  intros Hin. apply Hnotin.
  apply in_map_iff in Hin as (g & Hg & Hgin).
  apply filter_In in Hgin as [Hgin _].
  rewrite <- Hg. now apply in_map.
Qed.

Lemma in_names_filter (l : list Framework) (f : Framework) :
  NoDup (map name l) -> In f l ->
  (In (name f) (map name (filter P l)) <-> P f = true).
Proof.
  intros Hnd Hf. split.
  - intros Hin. apply in_map_iff in Hin as (g & Hg & Hgin).
    apply filter_In in Hgin as [Hgin HP].
    now rewrite <- (name_injective l g f Hnd Hgin Hf Hg).
  - intros HP. apply in_map. apply filter_In. auto.
Qed.

End Names.

(* ================================================================== *)
(** * The claims *)

(** C1.  One pass returns the names of the frameworks whose accumulated
    confidence is at least their [minConfidence], in the order of the list
    (not sorted by score): a framework that meets its threshold has its
    name in the returned sequence; and, the names of the list being
    distinct, a name that is in the returned sequence belongs to a
    framework that meets its threshold, and is there once. *)
Theorem C1_detected_iff_threshold (options : Options.t) (d : Document)
    (entry : EntryPoint) (frameworkList : list Framework) (c : Console) :
  exists (detectedFrameworks : list string) (after : list Framework) (c' : Console),
    getDetectedFrameworks options d entry frameworkList c
      = (Normal (detectedFrameworks, after), c')
    /\ map name after = map name frameworkList
    /\ map minConfidence after = map minConfidence frameworkList
    /\ detectedFrameworks
       = map name (filter (fun f => minConfidence f <=? confidence f) after)
    /\ (forall f, In f after -> minConfidence f <= confidence f ->
                  In (name f) detectedFrameworks)
    /\ (NoDup (map name frameworkList) ->
        forall f, In f after ->
          (In (name f) detectedFrameworks <-> minConfidence f <= confidence f)
          /\ (In (name f) detectedFrameworks ->
              count_occ string_dec detectedFrameworks (name f) = 1%nat)).
Proof.
  destruct (proj1 (wp_run _ _ _)
              (getDetectedFrameworks_run options d entry frameworkList c))
    as ([names after] & c' & Hrun & Heq & _).
  injection Heq as -> ->.
  assert (Hnames : map name (scored d entry frameworkList) = map name frameworkList).
  { unfold scored. rewrite map_map. apply map_ext. reflexivity. }
  exists (detectedNames d entry frameworkList), (scored d entry frameworkList), c'.
  split; [exact Hrun|]. split; [exact Hnames|].
  split; [unfold scored; rewrite map_map; apply map_ext; reflexivity|].
  split; [apply detectedNames_stored|].
  rewrite detectedNames_stored. split.
  - intros f Hf Hmeets. apply in_map. apply filter_In.
    split; [exact Hf | now apply Z.leb_le].
  - intros Hnd f Hf. rewrite <- Hnames in Hnd. split.
    + rewrite (in_names_filter _ _ f Hnd Hf). apply Z.leb_le.
    + apply NoDup_count_occ'. now apply NoDup_names_filter.
Qed.

Lemma C1_witness :
  exists (detectedFrameworks : list string) (after : list Framework) (c' : Console),
    getDetectedFrameworks allOn reactPage SingleFile [React; AngularJS] []
      = (Normal (detectedFrameworks, after), c')
    /\ detectedFrameworks
       = map name (filter (fun f => minConfidence f <=? confidence f) after)
    /\ forall f, In f after ->
         (In (name f) detectedFrameworks <-> minConfidence f <= confidence f)
         /\ (In (name f) detectedFrameworks ->
             count_occ string_dec detectedFrameworks (name f) = 1%nat).
Proof.
  destruct (C1_detected_iff_threshold allOn reactPage SingleFile [React; AngularJS] [])
    as (names & after & c' & Hrun & _ & _ & Horder & _ & Hiff).
  exists names, after, c'. split; [exact Hrun|]. split; [exact Horder|].
  apply Hiff. repeat constructor; simpl; intuition discriminate.
Defined.

(** The confidence after a step is the confidence before plus the weight
    the step contributes. *)
Lemma bumped_confidence (z : Z) (f f' : Framework) :
  bumped z f f' -> confidence f' = confidence f + z.
Proof. intros ->. reflexivity. Qed.

Lemma fileWeight_script (d : Document) (signal : Signal) (pattern : string) :
  pattern <> EmptyString ->
  (exists tag, In tag (scriptTags d)
               /\ includes (toLowerCase (src tag)) (toLowerCase pattern) = true) ->
  fileWeight d signal pattern = weight signal.
Proof.
  intros Hne (tag & Hin & Hinc). unfold fileWeight.
  destruct (find _ _) as [found|] eqn:Hfind.
  - apply find_some in Hfind as [_ Hfound].
    rewrite (@includes_nonEmpty found (toLowerCase pattern)); auto.
    intros Hp. apply Hne. now apply toLowerCase_empty.
  - apply find_none with (x := toLowerCase (src tag)) in Hfind.
    + congruence.
    + now apply (in_map (fun tag => toLowerCase (src tag))).
Qed.

Lemma fileWeight_no_script (d : Document) (signal : Signal) (pattern : string) :
  (forall tag, In tag (scriptTags d) ->
               includes (toLowerCase (src tag)) (toLowerCase pattern) = false) ->
  fileWeight d signal pattern = sourceWeight d pattern.
Proof.
  intros Hnone. unfold fileWeight.
  destruct (find _ _) as [found|] eqn:Hfind; [|reflexivity].
  apply find_some in Hfind as [Hin Hfound].
  apply in_map_iff in Hin as (tag & <- & Hin).
  rewrite (Hnone tag Hin) in Hfound. discriminate.
Qed.




(** C3, as stated, fails: on a page whose only occurrence of
    [bootstrap.min.css] is the [href] of its stylesheet link, a file signal
    of weight 5 adds 1, through the page-source branch. *)
Lemma C3_counterexample :
  ~ (forall (options : Options.t) (d : Document) (signal : Signal) (a : Acc)
            (pattern : string) (c : Console),
        (exists link, In link (styleLinks d)
                      /\ includes (toLowerCase (href link)) (toLowerCase pattern) = true) ->
        (forall tag, In tag (scriptTags d) ->
                     includes (toLowerCase (src tag)) (toLowerCase pattern) = false) ->
        exists a' c',
          filePattern options signal (scriptTags d)
            (map (fun tag => toLowerCase (src tag)) (scriptTags d))
            (toLowerCase (documentElement_outerHTML d)) a pattern c
          = (Normal a', c')
          /\ confidence (fst a') = confidence (fst a) + weight signal).
Proof.
  intros H.
  destruct (H cssOnly stylesheetPage (patternSig "file" ["bootstrap.min.css"] 5)
              (startOf ChakraUI (patternSig "file" ["bootstrap.min.css"] 5))
              "bootstrap.min.css" [])
    as (a' & c' & Hrun & Hconf).
  - exists (styleLink "https://cdn.example.com/bootstrap.min.css").
    split; [left; reflexivity | reflexivity].
  - intros tag [].
  - vm_compute in Hrun. injection Hrun as <- <-. vm_compute in Hconf. discriminate.
Qed.

(** C3 (amended).  The full-weight search of a file signal covers the
    [src] of the script tags only: the stylesheet links of the page are
    not read, and a pattern that matches no script [src] - such as one
    whose only occurrence is the [href] of a stylesheet link - adds 1 when
    it occurs in the serialized markup and nothing otherwise. *)
Theorem C3_file_search_scripts_only (options : Options.t) (d : Document)
    (signal : Signal) (a : Acc) (pattern : string) (c : Console) :
  (forall tag, In tag (scriptTags d) ->
               includes (toLowerCase (src tag)) (toLowerCase pattern) = false) ->
  (exists a' c',
      filePattern options signal (scriptTags d)
        (map (fun tag => toLowerCase (src tag)) (scriptTags d))
        (toLowerCase (documentElement_outerHTML d)) a pattern c
      = (Normal a', c')
      /\ confidence (fst a')
         = confidence (fst a)
           + (if includes (toLowerCase (documentElement_outerHTML d))
                          (toLowerCase pattern)
              then 1 else 0))
  /\ (forall links,
        fileSignal options (withStyleLinks d links) signal a c
        = fileSignal options d signal a c).
Proof.
  intros Hnone. split; [|reflexivity].
  destruct (proj1 (wp_run _ _ _) (filePattern_run options d signal a pattern c))
    as (a' & c' & Hrun & Hb & _).
  apply bumped_confidence in Hb.
  exists a', c'. split; [exact Hrun|].
  now rewrite Hb, fileWeight_no_script.
Qed.

Lemma C3_witness :
  (exists a' c',
      filePattern cssOnly (patternSig "file" ["bootstrap.min.css"] 5)
        (scriptTags stylesheetPage)
        (map (fun tag => toLowerCase (src tag)) (scriptTags stylesheetPage))
        (toLowerCase (documentElement_outerHTML stylesheetPage))
        (startOf ChakraUI (patternSig "file" ["bootstrap.min.css"] 5))
        "bootstrap.min.css" []
      = (Normal a', c')
      /\ confidence (fst a') = 0 + 1)
  /\ (forall links,
        fileSignal cssOnly (withStyleLinks stylesheetPage links)
          (patternSig "file" ["bootstrap.min.css"] 5)
          (startOf ChakraUI (patternSig "file" ["bootstrap.min.css"] 5)) []
        = fileSignal cssOnly stylesheetPage
            (patternSig "file" ["bootstrap.min.css"] 5)
            (startOf ChakraUI (patternSig "file" ["bootstrap.min.css"] 5)) []).
Proof.
  apply (C3_file_search_scripts_only cssOnly stylesheetPage
           (patternSig "file" ["bootstrap.min.css"] 5)
           (startOf ChakraUI (patternSig "file" ["bootstrap.min.css"] 5))
           "bootstrap.min.css" []).
  intros tag [].
Defined.

(** What [detectFrameworks] returns, family by family. *)
Lemma detectFrameworks_family (options : Options.t) (d : Document)
    (entry : EntryPoint) (catalog : Catalog) (c : Console) :
  exists findings after c',
    detectFrameworks options d entry catalog c = (Normal (findings, after), c')
    /\ (Options.debugMode options = false -> c' = c)
    /\ forall family,
         familyResult findings family
         = reported (familyEnabled options family) d entry (familyList catalog family)
         /\ familyList after family
            = if familyEnabled options family
              then scored d entry (familyList catalog family)
              else familyList catalog family.
Proof.
  destruct (proj1 (wp_run _ _ _) (detectFrameworks_run options d entry catalog c))
    as ([findings after] & c' & Hrun & Heq & Hq).
  injection Heq as -> ->.
  eexists _, _, c'. split; [exact Hrun|]. split; [exact Hq|].
  intros [|]; split; reflexivity.
Qed.

Lemma filter_none {A} (P : A -> bool) (l : list A) :
  (forall x, In x l -> P x = false) -> filter P l = [].
Proof.
  induction l as [|x l IH]; simpl; intros H; [reflexivity|].
  rewrite (H x (or_introl eq_refl)). apply IH. intros y Hy. apply H. now right.
Qed.

(** C4.  For an enabled family, the returned sequence is the names of the
    frameworks that meet their threshold, or the one-element sequence
    ["None detected"] when there is none; so, when no framework of the
    family meets its threshold the result is exactly the sentinel, and
    (no framework being itself named "None detected") the sentinel is in a
    returned sequence only as its single element. *)
Theorem C4_sentinel_law (options : Options.t) (d : Document) (entry : EntryPoint)
    (catalog : Catalog) (c : Console) (family : Family) :
  familyEnabled options family = true ->
  exists findings after c',
    detectFrameworks options d entry catalog c = (Normal (findings, after), c')
    /\ familyResult findings family
       = match map name (filter (fun f => minConfidence f <=? confidence f)
                                (familyList after family)) with
         | [] => [sentinel]
         | names => names
         end
    /\ ((forall f, In f (familyList after family) ->
                   confidence f < minConfidence f) ->
        familyResult findings family = [sentinel])
    /\ ((forall f, In f (familyList catalog family) -> name f <> sentinel) ->
        In sentinel (familyResult findings family) ->
        familyResult findings family = [sentinel]).
Proof.
  intros Hen.
  destruct (detectFrameworks_family options d entry catalog c)
    as (findings & after & c' & Hrun & _ & Hfam).
  destruct (Hfam family) as [Hres Hafter]. rewrite Hen in Hres, Hafter.
  exists findings, after, c'. split; [exact Hrun|].
  rewrite Hres, Hafter. unfold reported. rewrite detectedNames_stored.
  split; [reflexivity|]. split.
  - intros Hall. rewrite filter_none; [reflexivity|].
    intros f Hf. apply Z.leb_gt. now apply Hall.
  - intros Hreal Hin.
    rewrite <- detectedNames_stored in *.
    destruct (detectedNames d entry (familyList catalog family)) as [|n ns] eqn:Hnames;
      [reflexivity|].
    exfalso. rewrite <- Hnames in Hin. unfold detectedNames in Hin.
    apply in_map_iff in Hin as (f & Hname & Hf).
    apply filter_In in Hf as [Hf _]. exact (Hreal f Hf Hname).
Qed.

Lemma C4_witness :
  exists findings after c',
    detectFrameworks cssOnly stylesheetPage SingleFile sampleCatalog []
      = (Normal (findings, after), c')
    /\ familyResult findings CSS = [sentinel].
Proof.
  destruct (C4_sentinel_law cssOnly stylesheetPage SingleFile sampleCatalog [] CSS)
    as (findings & after & c' & Hrun & Hres & Hnone & Honly);
    [reflexivity|].
  exists findings, after, c'. split; [exact Hrun|].
  apply Honly.
  - simpl. intros f [<-|[]]. discriminate.
  - rewrite Hres. vm_compute in Hrun. injection Hrun as <- <- <-.
    left. reflexivity.
Defined.

(** C10.  A family that is disabled in the options is not evaluated: its
    returned sequence is empty, not the sentinel, and its frameworks are
    left as they were. *)
Theorem C10_disabled_family_empty (options : Options.t) (d : Document)
    (entry : EntryPoint) (catalog : Catalog) (c : Console) (family : Family) :
  familyEnabled options family = false ->
  exists findings after c',
    detectFrameworks options d entry catalog c = (Normal (findings, after), c')
    /\ familyResult findings family = []
    /\ familyResult findings family <> [sentinel]
    /\ familyList after family = familyList catalog family.
Proof.
  intros Hdis.
  destruct (detectFrameworks_family options d entry catalog c)
    as (findings & after & c' & Hrun & _ & Hfam).
  destruct (Hfam family) as [Hres Hafter]. rewrite Hdis in Hres, Hafter.
  exists findings, after, c'. rewrite Hres. simpl.
  repeat split; auto. discriminate.
Qed.

Lemma C10_witness :
  exists findings after c',
    detectFrameworks cssOnly reactPage SingleFile sampleCatalog []
      = (Normal (findings, after), c')
    /\ familyResult findings JS = []
    /\ familyResult findings JS <> [sentinel]
    /\ familyList after JS = familyList sampleCatalog JS.
Proof.
  apply (C10_disabled_family_empty cssOnly reactPage SingleFile sampleCatalog [] JS).
  reflexivity.
Defined.

Lemma detectedNames_stale d entry (stale : Framework -> Z) (fl : list Framework) :
  detectedNames d entry (map (fun f => set_confidence f (stale f)) fl)
  = detectedNames d entry fl.
Proof.
  unfold detectedNames.
  induction fl as [|f fl IH]; [reflexivity|].
  cbn [map filter]. rewrite meetsThreshold_set_confidence.
  destruct (meetsThreshold d entry f); cbn [map]; now rewrite IH.
Qed.

(** C7.  Detection is idempotent: a second call, on the same document with
    the same options and on the catalog as the first call left it, returns
    the same findings (and leaves the catalog as it is); and whatever
    confidences the frameworks hold when a call starts, the findings are
    the same, each accumulator being reset before its framework is
    evaluated. *)
Theorem C7_idempotent (options : Options.t) (d : Document) (entry : EntryPoint)
    (catalog : Catalog) (c : Console) :
  exists findings after c1 c2,
    detectFrameworks options d entry catalog c = (Normal (findings, after), c1)
    /\ detectFrameworks options d entry after c1 = (Normal (findings, after), c2)
    /\ forall (stale : Framework -> Z),
         exists after' c',
           detectFrameworks options d entry
             {| js := map (fun f => set_confidence f (stale f)) (js catalog);
                css := map (fun f => set_confidence f (stale f)) (css catalog) |} c
           = (Normal (findings, after'), c').
Proof.
  destruct (proj1 (wp_run _ _ _) (detectFrameworks_run options d entry catalog c))
    as ([findings after] & c1 & Hrun & Heq & _).
  injection Heq as -> ->.
  destruct (proj1 (wp_run _ _ _)
              (detectFrameworks_run options d entry
                 (catalogAfter options d entry catalog) c1))
    as ([findings2 after2] & c2 & Hrun2 & Heq2 & _).
  injection Heq2 as -> ->.
  eexists _, _, c1, c2. split; [exact Hrun|]. split.
  - rewrite Hrun2. unfold catalogAfter, reported. simpl.
    destruct (Options.jsFrameworks options), (Options.cssFrameworks options);
      rewrite ?detectedNames_scored, ?scored_scored; reflexivity.
  - intros stale.
    destruct (proj1 (wp_run _ _ _)
                (detectFrameworks_run options d entry
                   {| js := map (fun f => set_confidence f (stale f)) (js catalog);
                      css := map (fun f => set_confidence f (stale f)) (css catalog) |}
                   c))
      as ([findings3 after3] & c3 & Hrun3 & Heq3 & _).
    injection Heq3 as -> ->.
    eexists _, c3. rewrite Hrun3. unfold reported. simpl.
    rewrite !detectedNames_stale. reflexivity.
Qed.






(** C6.  When two or more elements have a class text that contains the
    pattern (case-insensitively), a class signal adds its weight once for
    that pattern. *)
Theorem C6_class_counts_once (options : Options.t) (d : Document) (signal : Signal)
    (a : Acc) (pattern : string) (c : Console) :
  (2 <= List.length
          (filter (fun el => includes (toLowerCase (classText el)) (toLowerCase pattern))
                  (classElements d)))%nat ->
  exists a' c',
    classPattern options d signal a pattern c = (Normal a', c')
    /\ confidence (fst a') = confidence (fst a) + weight signal.
Proof.
  intros Hmany.
  destruct (proj1 (wp_run _ _ _) (classPattern_run options d signal a pattern c))
    as (a' & c' & Hrun & Hb & _).
  apply bumped_confidence in Hb.
  exists a', c'. split; [exact Hrun|]. rewrite Hb. f_equal.
  unfold classWeight.
  destruct (existsb (classMatches pattern) (classElements d)) eqn:Hex; [reflexivity|].
  exfalso.
  rewrite (filter_none (fun el => includes (toLowerCase (classText el))
                                           (toLowerCase pattern))) in Hmany.
  - simpl in Hmany. lia.
  - intros el Hel.
    destruct (includes (toLowerCase (classText el)) (toLowerCase pattern)) eqn:Hinc;
      [|reflexivity].
    assert (existsb (classMatches pattern) (classElements d) = true)
      by (apply existsb_exists; exists el; auto).
    congruence.
Qed.

Lemma C6_witness :
  exists a' c',
    classPattern allOn classyPage (patternSig "class" ["react-"; "_react"] 2)
      (startOf React (patternSig "class" ["react-"; "_react"] 2)) "react-" []
    = (Normal a', c')
    /\ confidence (fst a') = 0 + 2.
Proof.
  apply (C6_class_counts_once allOn classyPage
           (patternSig "class" ["react-"; "_react"] 2)
           (startOf React (patternSig "class" ["react-"; "_react"] 2)) "react-" []).
  vm_compute. lia.
Defined.

(* ================================================================== *)
(** * Scores of non-negative weights *)

Section NonNegative.

Variable d : Document.
Variable entry : EntryPoint.
Variable signal : Signal.
Hypothesis weight_nonneg : 0 <= weight signal.

Lemma globalWeight_nonneg (p : string) : 0 <= globalWeight d signal p.
Proof. unfold globalWeight. destruct (truthy _); lia. Qed.

Lemma sourceWeight_nonneg (p : string) : 0 <= sourceWeight d p.
Proof. unfold sourceWeight. destruct (includes _ _); lia. Qed.

Lemma fileWeight_nonneg (p : string) : 0 <= fileWeight d signal p.
Proof.
  unfold fileWeight. pose proof (sourceWeight_nonneg p).
  destruct (find _ _) as [found|]; [destruct (nonEmpty found)|]; lia.
Qed.

Lemma attributeWeight_nonneg (p : string) : 0 <= attributeWeight d signal p.
Proof.
  unfold attributeWeight.
  destruct (querySelectorAll _ _) as [els|]; [destruct (_ <? _)%nat|]; lia.
Qed.

Lemma classWeight_nonneg (p : string) : 0 <= classWeight d signal p.
Proof. unfold classWeight. destruct (existsb _ _); lia. Qed.

Lemma sumZ_nonneg {A} (g : A -> Z) (l : list A) :
  (forall x, 0 <= g x) -> 0 <= sumZ (map g l).
Proof.
  intros Hg. induction l as [|x l IH]; simpl; [lia|]. specialize (Hg x). lia.
Qed.

Lemma sumZ_member {A} (g : A -> Z) (l : list A) (x : A) :
  (forall y, 0 <= g y) -> In x l -> g x <= sumZ (map g l).
Proof.
  intros Hg. induction l as [|y l IH]; simpl; [contradiction|].
  intros [->|Hin].
  - pose proof (sumZ_nonneg g l Hg). lia.
  - specialize (IH Hin). specialize (Hg y). lia.
Qed.

Lemma patternsWeight_nonneg (ty : string) (w : Signal -> string -> Z) :
  (forall p, 0 <= w signal p) -> 0 <= patternsWeight ty w signal.
Proof.
  intros Hw. unfold patternsWeight.
  destruct (String.eqb _ _); [destruct (patterns signal)|]; try lia.
  now apply sumZ_nonneg.
Qed.

Lemma predicateWeight_nonneg (ty : string) : 0 <= predicateWeight d ty signal.
Proof.
  unfold predicateWeight.
  destruct (String.eqb _ _); [destruct (test signal) as [t|]|]; try lia.
  destruct (t d) as [v|]; [destruct (truthy v)|]; lia.
Qed.

Lemma signalScore_nonneg : 0 <= signalScore d entry signal.
Proof.
  unfold signalScore.
  pose proof (patternsWeight_nonneg "global" (globalWeight d) globalWeight_nonneg).
  pose proof (patternsWeight_nonneg "file" (fileWeight d) fileWeight_nonneg).
  pose proof (patternsWeight_nonneg "attribute" (attributeWeight d)
                attributeWeight_nonneg).
  pose proof (patternsWeight_nonneg "class" (classWeight d) classWeight_nonneg).
  pose proof (predicateWeight_nonneg "dom").
  pose proof (predicateWeight_nonneg "styleRule").
  pose proof (predicateWeight_nonneg "multiClass").
  destruct entry; lia.
Qed.

End NonNegative.

(** On a page that defines [window.React] and loads a script whose [src]
    contains [react.min.js], the React entry scores at least 3 + 4. *)
Lemma React_score (d : Document) (entry : EntryPoint) :
  truthy (window d "React") = true ->
  (exists tag, In tag (scriptTags d) /\ includes (src tag) "react.min.js" = true) ->
  7 <= frameworkScore d entry React.
Proof.
  intros Hglobal (tag & Hin & Hinc).
  unfold frameworkScore, React. cbn [signals map sumZ].
  set (g := patternSig "global" ["React"; "ReactDOM"; "__REACT_DEVTOOLS_GLOBAL_HOOK__"] 3).
  set (t := patternSig "attribute" ["data-reactroot"; "data-reactid"] 5).
  set (k := patternSig "class" ["react-"; "_react"] 2).
  set (f := patternSig "file" ["react.js"; "react.min.js"; "react-dom"] 4).
  assert (Hg : 3 <= signalScore d entry g).
  { unfold signalScore.
    assert (H1 : 3 <= patternsWeight "global" (globalWeight d) g).
    { unfold patternsWeight, g. cbn [type patterns patternSig String.eqb Ascii.eqb
                                      Bool.eqb map sumZ].
      unfold globalWeight at 1. rewrite Hglobal. cbn [weight patternSig].
      assert (Hw : 0 <= weight g) by (cbn; lia).
      pose proof (globalWeight_nonneg d g Hw "ReactDOM").
      pose proof (globalWeight_nonneg d g Hw "__REACT_DEVTOOLS_GLOBAL_HOOK__").
      fold g. lia. }
    assert (Hw : 0 <= weight g) by (cbn; lia).
    pose proof (patternsWeight_nonneg g "file" (fileWeight d)
                  (fileWeight_nonneg d g Hw)).
    pose proof (patternsWeight_nonneg g "attribute" (attributeWeight d)
                  (attributeWeight_nonneg d g Hw)).
    pose proof (patternsWeight_nonneg g "class" (classWeight d)
                  (classWeight_nonneg d g Hw)).
    pose proof (predicateWeight_nonneg d g Hw "dom").
    pose proof (predicateWeight_nonneg d g Hw "styleRule").
    pose proof (predicateWeight_nonneg d g Hw "multiClass").
    destruct entry; lia. }
  assert (Hf : 4 <= signalScore d entry f).
  { unfold signalScore.
    assert (Hw : 0 <= weight f) by (cbn; lia).
    assert (H1 : 4 <= patternsWeight "file" (fileWeight d) f).
    { unfold patternsWeight, f. cbn [type patterns patternSig String.eqb Ascii.eqb
                                      Bool.eqb map sumZ].
      fold f.
      assert (Hmin : fileWeight d f "react.min.js" = 4).
      { apply (fileWeight_script d f); [discriminate|].
        exists tag. split; [exact Hin|].
        now apply (includes_toLowerCase (src tag) "react.min.js"). }
      pose proof (fileWeight_nonneg d f Hw "react.js").
      pose proof (fileWeight_nonneg d f Hw "react-dom").
      lia. }
    pose proof (patternsWeight_nonneg f "global" (globalWeight d)
                  (globalWeight_nonneg d f Hw)).
    pose proof (patternsWeight_nonneg f "attribute" (attributeWeight d)
                  (attributeWeight_nonneg d f Hw)).
    pose proof (patternsWeight_nonneg f "class" (classWeight d)
                  (classWeight_nonneg d f Hw)).
    pose proof (predicateWeight_nonneg d f Hw "dom").
    pose proof (predicateWeight_nonneg d f Hw "styleRule").
    pose proof (predicateWeight_nonneg d f Hw "multiClass").
    destruct entry; lia. }
  assert (Ht : 0 <= signalScore d entry t) by (apply signalScore_nonneg; cbn; lia).
  assert (Hk : 0 <= signalScore d entry k) by (apply signalScore_nonneg; cbn; lia).
  lia.
Qed.

(** C9.  On every document where [window.React] is truthy and the [src]
    of some script tag contains [react.min.js], a JS catalog that holds the
    React entry (global signal of weight 3, file signal of weight 4,
    [minConfidence] 4) leaves a confidence of at least 7 in that entry,
    and "React" is in the returned JS-framework sequence. *)
Theorem C9_react_scenario (options : Options.t) (d : Document) (entry : EntryPoint)
    (catalog : Catalog) (c : Console) :
  Options.jsFrameworks options = true ->
  In React (js catalog) ->
  truthy (window d "React") = true ->
  (exists tag, In tag (scriptTags d) /\ includes (src tag) "react.min.js" = true) ->
  exists findings after c',
    detectFrameworks options d entry catalog c = (Normal (findings, after), c')
    /\ In "React" (Findings.jsFrameworks findings)
    /\ exists react,
         In react (js after)
         /\ name react = "React"
         /\ signals react = signals React
         /\ minConfidence react = 4
         /\ 7 <= confidence react.
Proof.
  intros Hjs Hin Hglobal Hscript.
  pose proof (React_score d entry Hglobal Hscript) as Hscore.
  destruct (detectFrameworks_family options d entry catalog c)
    as (findings & after & c' & Hrun & _ & Hfam).
  destruct (Hfam JS) as [Hres Hafter]. simpl in Hres, Hafter.
  rewrite Hjs in Hres, Hafter.
  exists findings, after, c'. split; [exact Hrun|]. split.
  - rewrite Hres. unfold reported.
    assert (Hdet : In "React" (detectedNames d entry (js catalog))).
    { unfold detectedNames. apply (in_map name _ React).
      apply filter_In. split; [exact Hin|].
      unfold meetsThreshold. apply Z.leb_le. cbn [minConfidence React]. lia. }
    destruct (detectedNames d entry (js catalog)); [contradiction | exact Hdet].
  - exists (set_confidence React (frameworkScore d entry React)).
    rewrite Hafter. split.
    + unfold scored.
      apply (in_map (fun f => set_confidence f (frameworkScore d entry f)) _ React Hin).
    + repeat split; auto.
Qed.

Lemma C9_witness :
  exists findings after c',
    detectFrameworks allOn reactPage SingleFile sampleCatalog []
      = (Normal (findings, after), c')
    /\ In "React" (Findings.jsFrameworks findings)
    /\ exists react,
         In react (js after)
         /\ name react = "React"
         /\ signals react = signals React
         /\ minConfidence react = 4
         /\ 7 <= confidence react.
Proof.
  apply (C9_react_scenario allOn reactPage SingleFile sampleCatalog []).
  - reflexivity.
  - left. reflexivity.
  - reflexivity.
  - exists (scriptTag "https://cdn.example.com/react.min.js").
    split; [left; reflexivity | reflexivity].
Defined.

(* ================================================================== *)
(** * The file listing *)

Lemma split_nonempty (sep : ascii) (s : string) : split_ sep s <> [].
Proof.
  destruct s as [|a s]; simpl; [discriminate|].
  destruct (Ascii.eqb a sep); [discriminate|].
  destruct (split_ sep s); discriminate.
Qed.

(** [s] contains the character [ch]. *)
Lemma includes_char (a ch : ascii) (s : string) :
  includes (String a s) (String ch EmptyString)
  = Ascii.eqb a ch || includes s (String ch EmptyString).
Proof.
  simpl. destruct s; simpl; now rewrite ?andb_true_r.
Qed.

Lemma split_segments (sep : ascii) (s : string) :
  Forall (fun segment => includes segment (String sep EmptyString) = false)
         (split_ sep s).
Proof.
  induction s as [|a s IH]; simpl.
  - repeat constructor.
  - destruct (Ascii.eqb a sep) eqn:Ha.
    + constructor; [reflexivity | exact IH].
    + destruct (split_ sep s) as [|segment rest].
      * constructor; [|constructor]. rewrite includes_char, Ha. reflexivity.
      * inversion IH as [|x xs Hseg Hrest]; subst.
        constructor; [|exact Hrest]. now rewrite includes_char, Ha.
Qed.

Lemma last_split_no_sep (sep : ascii) (s : string) :
  includes (last (split_ sep s) EmptyString) (String sep EmptyString) = false.
Proof.
  pose proof (split_segments sep s) as Hall.
  pose proof (split_nonempty sep s) as Hne.
  destruct (exists_last Hne) as (front & segment & Heq).
  rewrite Heq in *. rewrite last_last.
  apply Forall_app in Hall as [_ Hlast]. now inversion Hlast.
Qed.

Lemma append_assoc (x y z : string) : (x ++ y) ++ z = x ++ (y ++ z).
Proof. induction x as [|a x IH]; simpl; [reflexivity | now rewrite IH]. Qed.

Lemma concat_cons (sep x y : string) (l : list string) :
  String.concat sep (x :: y :: l) = x ++ sep ++ String.concat sep (y :: l).
Proof. reflexivity. Qed.

(** Joining the segments with the separator gives the string back. *)
Lemma concat_split (sep : ascii) (s : string) :
  String.concat (String sep EmptyString) (split_ sep s) = s.
Proof.
  induction s as [|a s IH]; [reflexivity|].
  pose proof (split_nonempty sep s) as Hne.
  cbn [split_]. destruct (Ascii.eqb a sep) eqn:Ha.
  - apply Ascii.eqb_eq in Ha. subst a.
    destruct (split_ sep s) as [|x xs]; [congruence|].
    rewrite concat_cons, IH. reflexivity.
  - destruct (split_ sep s) as [|x xs]; [congruence|].
    destruct xs as [|y ys].
    + simpl in IH. subst x. reflexivity.
    + rewrite concat_cons in *. rewrite <- IH. reflexivity.
Qed.

Lemma concat_last (sep : string) (l : list string) :
  l <> [] -> exists front, String.concat sep l = front ++ last l EmptyString.
Proof.
  induction l as [|x l IH]; [congruence|]. intros _.
  destruct l as [|y l].
  - now exists EmptyString.
  - destruct IH as (front & IH); [discriminate|].
    exists (x ++ sep ++ front).
    rewrite concat_cons, IH.
    change (last (x :: y :: l) EmptyString) with (last (y :: l) EmptyString).
    now rewrite !append_assoc.
Qed.

(** The last segment is the end of the string. *)
Lemma last_split_suffix (sep : ascii) (s : string) :
  exists front, s = front ++ last (split_ sep s) EmptyString.
Proof.
  destruct (concat_last (String sep EmptyString) (split_nonempty sep s))
    as (front & Hfront).
  rewrite concat_split in Hfront. now exists front.
Qed.

Lemma keepTruthy_In (l : list (option string)) (n : string) :
  In n (keepTruthy l) <-> In (Some n) l /\ nonEmpty n = true.
Proof.
  induction l as [|[s|] l IH]; simpl.
  - tauto.
  - destruct (nonEmpty s) eqn:Hs; simpl; rewrite IH; split.
    + intros [->|[H1 H2]]; auto.
    + intros [[H|H] H2]; [left; congruence | auto].
    + intros [H1 H2]; auto.
    + intros [[H|H] H2]; [congruence | auto].
  - rewrite IH. split; [intros [H1 H2]; auto | intros [[H|H] H2]; [discriminate | auto]].
Qed.

Lemma includes_append_r (front s q : string) :
  includes s q = true -> includes (front ++ s) q = true.
Proof.
  intros H. induction front as [|a front IH]; [exact H|].
  change (startsWith (String a (front ++ s)) q || includes (front ++ s) q = true).
  rewrite IH. apply orb_true_r.
Qed.

Section ListingFacts.

Variable URL_ : string -> Completion URL.

(** A name that the listing extracts has no slash in it. *)
Lemma fileEntry_bare (address n : string) :
  fileEntry URL_ address = Some n -> includes n "/" = false.
Proof.
  unfold fileEntry.
  destruct (URL_ address) as [url|e];
    match goal with |- context [if ?b then _ else _] => destruct b end;
    try discriminate; intros [= <-]; apply (last_split_no_sep slash).
Qed.

Lemma listFiles_nonempty (addresses : list string) :
  listFiles URL_ addresses <> [].
Proof.
  unfold listFiles.
  destruct (keepTruthy (map (fileEntry URL_) addresses)); discriminate.
Qed.

(** X1.  Whatever the addresses and however the browser parses them, the
    listing is never empty, and every name in it is a non-empty string
    without a slash: a bare file name, or the placeholder. *)
Theorem X1_listed_names_are_bare (addresses : list string) :
  listFiles URL_ addresses <> []
  /\ forall n, In n (listFiles URL_ addresses) ->
       n <> EmptyString /\ includes n "/" = false.
Proof.
  split; [apply listFiles_nonempty|].
  unfold listFiles.
  destruct (keepTruthy (map (fileEntry URL_) addresses)) as [|x xs] eqn:Hfiles.
  - simpl. intros n [<-|[]]. split; [discriminate | reflexivity].
  - cbn [List.length Nat.eqb]. intros n Hn.
    rewrite <- Hfiles in Hn. apply keepTruthy_In in Hn as [Hin Hne].
    split; [intros ->; discriminate|].
    apply in_map_iff in Hin as (address & Hentry & _).
    eapply fileEntry_bare; eassumption.
Qed.

(** X2.  When the browser cannot parse an address, the fallback lists it
    only under a name that is the end of the address after its last slash,
    that contains a dot and no question mark, and only if no directory of
    the address is [api]. *)
Theorem X2_fallback_entry (address n : string) (e : Exn) :
  URL_ address = Throw e ->
  fileEntry URL_ address = Some n ->
  (exists directory, address = directory ++ n)
  /\ includes n "/" = false
  /\ includes n "." = true
  /\ includes n "?" = false
  /\ ~ In "api" (removelast (split_ slash address)).
Proof.
  intros Hthrow Hentry. pose proof (fileEntry_bare _ Hentry) as Hbare.
  unfold fileEntry in Hentry. rewrite Hthrow in Hentry.
  destruct (existsb _ _) eqn:Hapi; [discriminate|].
  destruct (includes (last (split_ slash address) EmptyString) ".") eqn:Hdot;
    [|discriminate].
  destruct (includes address "?") eqn:Hquery; [discriminate|].
  simpl in Hentry. injection Hentry as <-.
  destruct (last_split_suffix slash address) as (front & Hfront).
  split; [now exists front|]. split; [exact Hbare|]. split; [exact Hdot|]. split.
  - destruct (includes (last (split_ slash address) EmptyString) "?") eqn:Hq;
      [|reflexivity].
    apply (includes_append_r front) in Hq. rewrite <- Hfront in Hq. congruence.
  - intros Hin.
    assert (existsb (fun part => String.eqb part "api")
                    (removelast (split_ slash address)) = true)
      by (apply existsb_exists; exists "api"; split; [exact Hin | reflexivity]).
    congruence.
Qed.





End ListingFacts.

Lemma X2_witness :
  (exists directory, "assets/js/app.bundle.js" = directory ++ "app.bundle.js")
  /\ includes "app.bundle.js" "/" = false
  /\ includes "app.bundle.js" "." = true
  /\ includes "app.bundle.js" "?" = false
  /\ ~ In "api" (removelast (split_ slash "assets/js/app.bundle.js")).
Proof.
  apply (@X2_fallback_entry noURL "assets/js/app.bundle.js" "app.bundle.js"
            (TypeError "Invalid URL")); reflexivity.
Defined.


(* ================================================================== *)
(** * The clipboard and the report *)

Lemma filter_nil_iff {A} (P : A -> bool) (l : list A) :
  filter P l = [] <-> forall x, In x l -> P x = false.
Proof.
  split; [|apply filter_none].
  induction l as [|y l IH]; simpl; [contradiction|].
  destruct (P y) eqn:Hy; [discriminate|].
  intros Hnil x [<-|Hx]; auto.
Qed.

(** X5.  [copyAIPrompt] returns without writing exactly when every entry
    of both lists is the placeholder (or both lists are empty); and when
    [updateClipboardButton] has enabled the button, it writes a prompt
    that names at least one file and never the placeholder. *)
Theorem X5_copy_button (clipboardData : Clipboard.t) :
  (copyAIPrompt clipboardData = None <->
   forall file,
     In file (Clipboard.jsFiles clipboardData ++ Clipboard.cssFiles clipboardData)%list ->
     file = "None found")
  /\ (updateClipboardButton clipboardData = false ->
      exists files,
        copyAIPrompt clipboardData
        = Some ("Give me a brief idea what these files are: "
                  ++ String.concat ", " files)
        /\ files <> []
        /\ ~ In "None found" files).
Proof.
  unfold copyAIPrompt, updateClipboardButton.
  set (all := (Clipboard.jsFiles clipboardData
                 ++ Clipboard.cssFiles clipboardData)%list).
  set (keep := fun file => negb (String.eqb file "None found")).
  assert (Hkeep : forall file, keep file = false <-> file = "None found").
  { intros file. unfold keep. rewrite negb_false_iff. apply String.eqb_eq. }
  split.
  - destruct (filter keep all) as [|x xs] eqn:Hf; simpl.
    + split; [intros _|reflexivity]. intros file Hin.
      apply Hkeep. exact (proj1 (filter_nil_iff keep all) Hf file Hin).
    + split; [discriminate|]. intros Hall. exfalso.
      assert (Hx : In x (filter keep all)) by (rewrite Hf; now left).
      apply filter_In in Hx as [Hin Hk].
      apply Hall, Hkeep in Hin. congruence.
  - intros Hen. apply negb_false_iff in Hen.
    assert (Hsome : exists file, In file all /\ keep file = true).
    { apply orb_true_iff in Hen as [H|H]; unfold all.
      - destruct (Clipboard.jsFiles clipboardData) as [|first rest];
          [discriminate|].
        exists first. split; [now left | exact H].
      - destruct (Clipboard.cssFiles clipboardData) as [|first rest];
          [discriminate|].
        exists first. split; [apply in_or_app; right; now left | exact H]. }
    destruct Hsome as (file & Hin & Hk).
    assert (Hf : In file (filter keep all)) by (apply filter_In; auto).
    exists (filter keep all).
    destruct (filter keep all) as [|x xs] eqn:Hfiles; [contradiction|].
    cbn [List.length Nat.eqb]. split; [reflexivity|]. split; [discriminate|].
    rewrite <- Hfiles. intros Hbad. apply filter_In in Hbad as [_ Hbad].
    discriminate.
Qed.

Lemma X5_witness :
  exists files,
    copyAIPrompt someFiles
    = Some ("Give me a brief idea what these files are: "
              ++ String.concat ", " files)
    /\ files <> []
    /\ ~ In "None found" files.
Proof.
  apply (proj2 (X5_copy_button someFiles)). reflexivity.
Defined.

(** X6.  A family that was evaluated without any framework reaching its
    threshold is reported as "No results": the sentinel that
    [detectFrameworks] puts in the result is rendered by
    [addResultSection] as an absent result is, never as a framework. *)
Theorem X6_sentinel_rendered_as_no_results (options : Options.t) (d : Document)
    (entry : EntryPoint) (frameworkList : list Framework) (c : Console)
    (title : string) (isListFormat : bool) (st : string * bool) :
  (forall f, In f frameworkList ->
             frameworkScore d entry f < minConfidence f) ->
  exists names after c',
    detectFamily options d entry true frameworkList c = (Normal (names, after), c')
    /\ addResultSection title (Some names) isListFormat st
       = addResultSection title None isListFormat st
    /\ addResultSection title (Some names) isListFormat st
       = (fst st ++ openTag "div" "result-group" ++ "<strong>" ++ title
            ++ ":</strong><br>" ++ noResults ++ "</div>", true).
Proof.
  intros Hbelow.
  destruct (proj1 (wp_run _ _ _)
              (detectFamily_run options d entry true frameworkList c))
    as ([names after] & c' & Hrun & Heq & _).
  injection Heq as -> ->.
  assert (Hnone : detectedNames d entry frameworkList = []).
  { unfold detectedNames. rewrite filter_none; [reflexivity|].
    intros f Hf. apply Z.leb_gt. now apply Hbelow. }
  rewrite Hnone in Hrun.
  eexists _, _, c'. split; [exact Hrun|].
  unfold addResultSection, sentinel.
  cbn [List.length Nat.eqb String.eqb Ascii.eqb Bool.eqb andb orb fst].
  split; [reflexivity|]. now rewrite !append_assoc.
Qed.

Lemma X6_witness :
  exists names after c',
    detectFamily cssOnly stylesheetPage SingleFile true [ChakraUI] []
      = (Normal (names, after), c')
    /\ addResultSection "CSS Frameworks" (Some names) false (EmptyString, false)
       = addResultSection "CSS Frameworks" None false (EmptyString, false)
    /\ addResultSection "CSS Frameworks" (Some names) false (EmptyString, false)
       = (fst (EmptyString, false) ++ openTag "div" "result-group" ++ "<strong>"
            ++ "CSS Frameworks" ++ ":</strong><br>" ++ noResults ++ "</div>", true).
Proof.
  apply (X6_sentinel_rendered_as_no_results cssOnly stylesheetPage SingleFile
           [ChakraUI] [] "CSS Frameworks" false (EmptyString, false)).
  intros f [<-|[]]. vm_compute. reflexivity.
Defined.

(** Every section starts with the same opening, so does a report that
    has a section. *)
Lemma addResultSection_opening (title : string) (items : option (list string))
    (isListFormat : bool) (st : string * bool) :
  snd (addResultSection title items isListFormat st) = true
  /\ exists r,
       fst (addResultSection title items isListFormat st)
       = fst st ++ (openTag "div" "result-group" ++ "<strong>") ++ r.
Proof.
  split; [reflexivity|]. unfold addResultSection. cbn [fst].
  destruct items as [[|first rest]|];
    [| destruct ((List.length (first :: rest) =? 1)%nat
                 && (String.eqb first "None found"
                     || String.eqb first "None detected"));
       [|destruct isListFormat] |];
    eexists; rewrite !append_assoc; reflexivity.
Qed.

Lemma report_opening (title : string) (items : option (list string))
    (isListFormat : bool) (st : string * bool) :
  (snd st = false /\ fst st = EmptyString
   \/ exists r, fst st = (openTag "div" "result-group" ++ "<strong>") ++ r) ->
  snd (addResultSection title items isListFormat st) = true
  /\ exists r,
       fst (addResultSection title items isListFormat st)
       = (openTag "div" "result-group" ++ "<strong>") ++ r.
Proof.
  intros Hst.
  destruct (addResultSection_opening title items isListFormat st) as [Hsnd [r Hr]].
  split; [exact Hsnd|]. rewrite Hr.
  destruct Hst as [[_ ->]|[r0 ->]].
  - now exists r.
  - eexists. rewrite !append_assoc. reflexivity.
Qed.

(** X7.  The report is the line "No analysis options selected." exactly
    when none of the four options is selected, whatever the findings. *)
Theorem X7_no_options_message (findings : Shown.t) (options : Options.t)
    (clipboardData : Clipboard.t) :
  fst (fst (displayResults findings options clipboardData))
    = openTag "div" "result-group" ++ "No analysis options selected.</div>"
  <-> (Options.jsFrameworks options = false
       /\ Options.cssFrameworks options = false
       /\ Options.listJS options = false
       /\ Options.listCSS options = false).
Proof.
  unfold displayResults. cbn [fst].
  set (s0 := (EmptyString, false)).
  set (s1 := if Options.jsFrameworks options
             then addResultSection "JS Frameworks" (Shown.jsFrameworks findings)
                    false s0
             else s0).
  set (s2 := if Options.cssFrameworks options
             then addResultSection "CSS Frameworks" (Shown.cssFrameworks findings)
                    false s1
             else s1).
  set (s3 := if Options.listJS options
             then addResultSection "JavaScript files" (Shown.jsFiles findings)
                    true s2
             else s2).
  set (s4 := if Options.listCSS options
             then addResultSection "CSS files" (Shown.cssFiles findings) true s3
             else s3).
  set (started := fun (on : bool) (st : string * bool) =>
         if on
         then snd st = true
              /\ exists r, fst st = (openTag "div" "result-group" ++ "<strong>") ++ r
         else snd st = false /\ fst st = EmptyString).
  assert (Hstep : forall on flag title items fmt st,
             started on st ->
             started (on || flag)
                     (if flag then addResultSection title items fmt st else st)).
  { intros on flag title items fmt st Hst. destruct flag.
    - rewrite orb_true_r. apply report_opening.
      destruct on; [right; exact (proj2 Hst) | left; exact Hst].
    - now rewrite orb_false_r. }
  assert (H0 : started false s0) by (split; reflexivity).
  assert (H1 : started (false || Options.jsFrameworks options) s1)
    by (apply Hstep; exact H0).
  assert (H2 : started (false || Options.jsFrameworks options
                        || Options.cssFrameworks options) s2)
    by (apply Hstep; exact H1).
  assert (H3 : started (false || Options.jsFrameworks options
                        || Options.cssFrameworks options
                        || Options.listJS options) s3)
    by (apply Hstep; exact H2).
  assert (H4 : started (false || Options.jsFrameworks options
                        || Options.cssFrameworks options
                        || Options.listJS options
                        || Options.listCSS options) s4)
    by (apply Hstep; exact H3).
  clearbody s4. clear H0 H1 H2 H3 Hstep s1 s2 s3.
  destruct (Options.jsFrameworks options), (Options.cssFrameworks options),
    (Options.listJS options), (Options.listCSS options);
    cbn [orb started] in H4; unfold started in H4; cbn [orb] in H4;
    destruct H4 as [Hsnd Hfst]; rewrite Hsnd;
    (split; [intros H | intros (G1 & G2 & G3 & G4)]);
    try discriminate; try (repeat split; reflexivity);
    destruct Hfst as [r Hr]; rewrite Hr in H; vm_compute in H; discriminate H.
Qed.

(* ================================================================== *)
(** * The theme *)

Section TokenLists.

Import DOMTokenList.

Lemma contains_app (l m : list string) (u : string) :
  contains (l ++ m) u = contains l u || contains m u.
Proof. apply existsb_app. Qed.

Lemma contains_add (l : list string) (t u : string) :
  contains (add l t) u = contains l u || String.eqb u t.
Proof.
  unfold add. destruct (contains l t) eqn:Ht.
  - destruct (String.eqb u t) eqn:Hu; [|now rewrite orb_false_r].
    apply String.eqb_eq in Hu. subst u. now rewrite Ht.
  - rewrite contains_app. simpl. now rewrite orb_false_r.
Qed.

Lemma contains_remove (l : list string) (t u : string) :
  contains (remove l t) u = contains l u && negb (String.eqb t u).
Proof.
  unfold contains, remove. induction l as [|x l IH]; simpl; [reflexivity|].
  destruct (String.eqb t x) eqn:Htx; simpl; rewrite IH.
  - apply String.eqb_eq in Htx. subst x.
    destruct (String.eqb u t) eqn:Hut; simpl; [|reflexivity].
    apply String.eqb_eq in Hut. subst u. rewrite String.eqb_refl. simpl.
    now rewrite andb_false_r.
  - destruct (String.eqb u x) eqn:Hux; simpl; [|reflexivity].
    apply String.eqb_eq in Hux. subst u. now rewrite Htx.
Qed.

Lemma remove_absent (l : list string) (t : string) :
  contains l t = false -> remove l t = l.
Proof.
  unfold contains, remove. induction l as [|x l IH]; simpl; [reflexivity|].
  intros H. apply orb_false_iff in H as [Hx Hl]. rewrite Hx. simpl.
  now rewrite IH.
Qed.

Lemma remove_last (l : list string) (t : string) :
  contains l t = false -> remove (l ++ [t]) t = l.
Proof.
  intros H. unfold remove. rewrite filter_app. simpl.
  rewrite String.eqb_refl. simpl. rewrite app_nil_r. now apply remove_absent.
Qed.

Lemma add_absent (l : list string) (t : string) :
  contains l t = false -> add l t = (l ++ [t])%list.
Proof. unfold add. now intros ->. Qed.

End TokenLists.

Lemma toggleTheme_classes (s : ThemeState) :
  DOMTokenList.contains (classList (toggleTheme s)) "dark-theme"
  = negb (DOMTokenList.contains (classList s) "dark-theme")
  /\ DOMTokenList.contains (classList (toggleTheme s)) "light-theme"
     = DOMTokenList.contains (classList s) "dark-theme".
Proof.
  unfold toggleTheme.
  destruct (DOMTokenList.contains (classList s) "dark-theme") eqn:Hdark;
    cbn [classList]; rewrite !contains_add, !contains_remove; simpl;
    rewrite ?Hdark, ?andb_false_r, ?orb_true_r; auto.
Qed.

(** X8.  After [toggleTheme] the body carries exactly one of the two theme
    classes, the other one than before (dark when it was not dark), the
    stored preference names that theme, and no other class of the body has
    been added or removed. *)
Theorem X8_toggle_sets_one_theme (s : ThemeState) :
  DOMTokenList.contains (classList (toggleTheme s)) "dark-theme"
  = negb (DOMTokenList.contains (classList s) "dark-theme")
  /\ DOMTokenList.contains (classList (toggleTheme s)) "light-theme"
     = DOMTokenList.contains (classList s) "dark-theme"
  /\ storedTheme (toggleTheme s)
     = Some (if DOMTokenList.contains (classList s) "dark-theme"
             then "light" else "dark")
  /\ forall other,
       other <> "dark-theme" -> other <> "light-theme" ->
       DOMTokenList.contains (classList (toggleTheme s)) other
       = DOMTokenList.contains (classList s) other.
Proof.
  destruct (toggleTheme_classes s) as [Hd Hl].
  split; [exact Hd|]. split; [exact Hl|]. unfold toggleTheme.
  destruct (DOMTokenList.contains (classList s) "dark-theme");
    (split; [reflexivity|]); intros other Hnd Hnl; cbn [classList];
    rewrite contains_add, contains_remove;
    apply String.eqb_neq in Hnd, Hnl;
    rewrite 1?(String.eqb_sym "dark-theme"), 1?(String.eqb_sym "light-theme");
    rewrite Hnd, Hnl; simpl; now rewrite andb_true_r, orb_false_r.
Qed.

(** A body that ends with its one theme class flips it in place. *)
Lemma toggleTheme_settled (rest : list string) (stored : option string) :
  DOMTokenList.contains rest "dark-theme" = false ->
  DOMTokenList.contains rest "light-theme" = false ->
  toggleTheme {| classList := (rest ++ ["dark-theme"])%list; storedTheme := stored |}
  = {| classList := (rest ++ ["light-theme"])%list; storedTheme := Some "light" |}
  /\ toggleTheme {| classList := (rest ++ ["light-theme"])%list; storedTheme := stored |}
     = {| classList := (rest ++ ["dark-theme"])%list; storedTheme := Some "dark" |}.
Proof.
  intros Hd Hl. unfold toggleTheme. cbn [classList].
  rewrite !contains_app, Hd. simpl.
  rewrite (remove_last _ _ Hd), (remove_last _ _ Hl).
  now rewrite (add_absent _ _ Hd), (add_absent _ _ Hl).
Qed.

Lemma toggleTheme_twice (s : ThemeState) :
  exists rest,
    DOMTokenList.contains rest "dark-theme" = false
    /\ DOMTokenList.contains rest "light-theme" = false
    /\ (toggleTheme (toggleTheme s)
        = {| classList := (rest ++ ["dark-theme"])%list; storedTheme := Some "dark" |}
        \/ toggleTheme (toggleTheme s)
           = {| classList := (rest ++ ["light-theme"])%list;
                storedTheme := Some "light" |}).
Proof.
  destruct (toggleTheme_classes s) as [Hd Hl].
  set (s1 := toggleTheme s) in *.
  unfold toggleTheme.
  destruct (DOMTokenList.contains (classList s1) "dark-theme") eqn:Hdark.
  - exists (DOMTokenList.remove (classList s1) "dark-theme").
    assert (Hlight : DOMTokenList.contains (classList s1) "light-theme" = false).
    { rewrite Hl. destruct (DOMTokenList.contains (classList s) "dark-theme");
        [discriminate | reflexivity]. }
    assert (H1 : DOMTokenList.contains
                   (DOMTokenList.remove (classList s1) "dark-theme") "dark-theme"
                 = false)
      by (rewrite contains_remove; simpl; apply andb_false_r).
    assert (H2 : DOMTokenList.contains
                   (DOMTokenList.remove (classList s1) "dark-theme") "light-theme"
                 = false)
      by (rewrite contains_remove, Hlight; reflexivity).
    split; [exact H1|]. split; [exact H2|]. right.
    now rewrite (add_absent _ _ H2).
  - exists (DOMTokenList.remove (classList s1) "light-theme").
    assert (H1 : DOMTokenList.contains
                   (DOMTokenList.remove (classList s1) "light-theme") "dark-theme"
                 = false)
      by (rewrite contains_remove, Hdark; reflexivity).
    assert (H2 : DOMTokenList.contains
                   (DOMTokenList.remove (classList s1) "light-theme") "light-theme"
                 = false)
      by (rewrite contains_remove; simpl; apply andb_false_r).
    split; [exact H1|]. split; [exact H2|]. left.
    now rewrite (add_absent _ _ H1).
Qed.

(** X9.  From any state, once the theme has been toggled twice, two more
    toggles bring back exactly the same class list and stored
    preference. *)
Theorem X9_toggle_twice_is_stable (s : ThemeState) :
  toggleTheme (toggleTheme (toggleTheme (toggleTheme s)))
  = toggleTheme (toggleTheme s).
Proof.
  destruct (toggleTheme_twice s) as (rest & Hd & Hl & [-> | ->]).
  - rewrite (proj1 (toggleTheme_settled rest (Some "dark") Hd Hl)).
    now rewrite (proj2 (toggleTheme_settled rest (Some "light") Hd Hl)).
  - rewrite (proj2 (toggleTheme_settled rest (Some "light") Hd Hl)).
    now rewrite (proj1 (toggleTheme_settled rest (Some "dark") Hd Hl)).
Qed.

(** X10.  The theme survives closing the popup: on a body without theme
    class, [initializeTheme] run with the preference that [toggleTheme]
    stored puts back the theme class the body had after the toggle,
    whatever the system preference. *)
Theorem X10_theme_persists (s : ThemeState) (base : list string)
    (prefersDark : option bool) :
  DOMTokenList.contains base "dark-theme" = false ->
  DOMTokenList.contains base "light-theme" = false ->
  let reopened :=
    initializeTheme prefersDark
      {| classList := base; storedTheme := storedTheme (toggleTheme s) |} in
  DOMTokenList.contains (classList reopened) "dark-theme"
  = DOMTokenList.contains (classList (toggleTheme s)) "dark-theme"
  /\ DOMTokenList.contains (classList reopened) "light-theme"
     = DOMTokenList.contains (classList (toggleTheme s)) "light-theme"
  /\ storedTheme reopened = storedTheme (toggleTheme s).
Proof.
  intros Hd Hl. destruct (toggleTheme_classes s) as [Hd' Hl'].
  rewrite Hd', Hl'. unfold toggleTheme.
  destruct (DOMTokenList.contains (classList s) "dark-theme");
    cbn [storedTheme]; unfold initializeTheme, themeIs; cbn [storedTheme classList];
    simpl String.eqb; cbn iota; cbn [storedTheme classList];
    rewrite !contains_add, Hd, Hl; repeat split; reflexivity.
Qed.

Lemma X10_witness :
  let reopened :=
    initializeTheme (Some true)
      {| classList := ["popup"]; storedTheme := storedTheme (toggleTheme freshBody) |} in
  DOMTokenList.contains (classList reopened) "dark-theme"
  = DOMTokenList.contains (classList (toggleTheme freshBody)) "dark-theme"
  /\ DOMTokenList.contains (classList reopened) "light-theme"
     = DOMTokenList.contains (classList (toggleTheme freshBody)) "light-theme"
  /\ storedTheme reopened = storedTheme (toggleTheme freshBody).
Proof.
  apply (X10_theme_persists freshBody ["popup"] (Some true)); reflexivity.
Defined.

(* ================================================================== *)
(** * More on the scoring engine *)

(** X11.  A signal that brings no evidence the engine knows how to read
    is skipped without a trace: a signal whose type is none of the seven
    type names, a signal that has neither patterns nor a predicate, and,
    in the modular copy of the engine, a [styleRule] or [multiClass]
    signal.  Confidence, details and console are left as they were. *)
Theorem X11_unreadable_signal_skipped (options : Options.t) (d : Document)
    (entry : EntryPoint) (signal : Signal) (st : Framework * list SignalResults)
    (c : Console) :
  (~ In (type signal)
        ["global"; "file"; "attribute"; "class"; "dom"; "styleRule"; "multiClass"]
   \/ (patterns signal = None /\ test signal = None)
   \/ (entry = Modular /\ In (type signal) ["styleRule"; "multiClass"])) ->
  evalSignal options d entry st signal c = (Normal st, c).
Proof.
  intros H. destruct st as [framework detectionDetails].
  destruct signal as [ty ps ts w]. cbn [type patterns test] in H.
  unfold evalSignal, patternSignal, fileSignal, predicateSignal, bind, ret.
  cbn [type test patterns weight].
  destruct H as [Hty | [[-> ->] | [-> Hty]]].
  - assert (Hneq : forall t, In t ["global"; "file"; "attribute"; "class"; "dom";
                                   "styleRule"; "multiClass"] ->
                             String.eqb ty t = false).
    { intros t Ht. apply String.eqb_neq. intros ->. contradiction. }
    rewrite !Hneq by (simpl; tauto). destruct entry; reflexivity.
  - destruct (String.eqb ty "global"), (String.eqb ty "file"),
      (String.eqb ty "attribute"), (String.eqb ty "class"), (String.eqb ty "dom"),
      (String.eqb ty "styleRule"), (String.eqb ty "multiClass"), entry;
      reflexivity.
  - destruct Hty as [<-|[<-|[]]]; reflexivity.
Qed.

Lemma X11_witness :
  evalSignal allOn reactPage Modular (set_confidence React 0, [])
    (testSig "styleRule" (fun _ => Normal (JSBoolean true)) 5) []
  = (Normal (set_confidence React 0, []), []).
Proof.
  apply X11_unreadable_signal_skipped.
  right. right. split; [reflexivity | left; reflexivity].
Defined.

Lemma sumZ_count {A} (P : A -> bool) (w : Z) (l : list A) :
  sumZ (map (fun x => if P x then w else 0) l)
  = w * Z.of_nat (List.length (filter P l)).
Proof.
  induction l as [|x l IH]; [simpl; lia|].
  cbn [map sumZ filter]. rewrite IH.
  destruct (P x); cbn [List.length]; lia.
Qed.

(** The score of a signal of a pattern type is the sum over its
    patterns. *)
Lemma signalScore_patterns (d : Document) (entry : EntryPoint) (signal : Signal)
    (ty : string) (ps : list string) :
  In ty ["global"; "file"; "attribute"; "class"] ->
  type signal = ty ->
  patterns signal = Some ps ->
  signalScore d entry signal
  = sumZ (map (if String.eqb ty "global" then globalWeight d signal
               else if String.eqb ty "file" then fileWeight d signal
               else if String.eqb ty "attribute" then attributeWeight d signal
               else classWeight d signal) ps).
Proof.
  intros Hty Htype Hps. unfold signalScore, patternsWeight, predicateWeight.
  rewrite Htype, Hps.
  destruct Hty as [<-|[<-|[<-|[<-|[]]]]]; destruct entry; cbn; lia.
Qed.

(** X12.  A global signal counts once for every one of its names that is
    defined and truthy on [window]: it adds its weight times the number of
    such names, so a signal with several names can add more than its
    weight. *)
Theorem X12_global_counts_each_name (options : Options.t) (d : Document)
    (entry : EntryPoint) (signal : Signal) (ps : list string)
    (framework : Framework) (detectionDetails : list SignalResults) (c : Console) :
  type signal = "global" ->
  patterns signal = Some ps ->
  exists st' c',
    evalSignal options d entry (framework, detectionDetails) signal c
      = (Normal st', c')
    /\ confidence (fst st')
       = confidence framework
         + weight signal
           * Z.of_nat (List.length (filter (fun p => truthy (window d p)) ps)).
Proof.
  intros Htype Hps.
  destruct (proj1 (wp_run _ _ _)
              (evalSignal_run options d entry (framework, detectionDetails) signal c))
    as (st' & c' & Hrun & Hb & _).
  apply bumped_confidence in Hb. exists st', c'. split; [exact Hrun|].
  rewrite Hb. cbn [fst]. f_equal.
  rewrite (signalScore_patterns d entry signal (ty := "global") (ps := ps));
    [|simpl; tauto|exact Htype|exact Hps].
  cbn [String.eqb Ascii.eqb Bool.eqb]. unfold globalWeight.
  apply (sumZ_count (fun p => truthy (window d p))).
Qed.

Lemma X12_witness :
  exists st' c',
    evalSignal allOn twoGlobalsPage SingleFile (set_confidence React 0, [])
      (patternSig "global" ["React"; "ReactDOM"; "__REACT_DEVTOOLS_GLOBAL_HOOK__"] 3)
      []
    = (Normal st', c')
    /\ confidence (fst st')
       = confidence (set_confidence React 0)
         + weight (patternSig "global"
                     ["React"; "ReactDOM"; "__REACT_DEVTOOLS_GLOBAL_HOOK__"] 3)
           * Z.of_nat (List.length
                         (filter (fun p => truthy (window twoGlobalsPage p))
                                 ["React"; "ReactDOM";
                                  "__REACT_DEVTOOLS_GLOBAL_HOOK__"])).
Proof.
  apply X12_global_counts_each_name; reflexivity.
Defined.

(** X13.  An attribute signal counts once for every one of its patterns
    for which the selector [[p],[data-p]] is accepted by the page and
    matches at least one element, however many elements match: it adds
    its weight times the number of such patterns. *)
Theorem X13_attribute_counts_each_pattern (options : Options.t) (d : Document)
    (entry : EntryPoint) (signal : Signal) (ps : list string)
    (framework : Framework) (detectionDetails : list SignalResults) (c : Console) :
  type signal = "attribute" ->
  patterns signal = Some ps ->
  exists st' c',
    evalSignal options d entry (framework, detectionDetails) signal c
      = (Normal st', c')
    /\ confidence (fst st')
       = confidence framework
         + weight signal * Z.of_nat (List.length (filter (attributeFound d) ps)).
Proof.
  intros Htype Hps.
  destruct (proj1 (wp_run _ _ _)
              (evalSignal_run options d entry (framework, detectionDetails) signal c))
    as (st' & c' & Hrun & Hb & _).
  apply bumped_confidence in Hb. exists st', c'. split; [exact Hrun|].
  rewrite Hb. cbn [fst]. f_equal.
  rewrite (signalScore_patterns d entry signal (ty := "attribute") (ps := ps));
    [|simpl; tauto|exact Htype|exact Hps].
  cbn [String.eqb Ascii.eqb Bool.eqb].
  rewrite <- (sumZ_count (attributeFound d)). f_equal. apply map_ext.
  intros p. unfold attributeWeight, attributeFound.
  destruct (querySelectorAll d _) as [els|e]; reflexivity.
Qed.

Lemma X13_witness :
  exists st' c',
    evalSignal allOn angularPage SingleFile (set_confidence AngularJS 0, [])
      (patternSig "attribute" ["ng-app"; "ng-controller"; "ng-model"; "ng-repeat"] 5)
      []
    = (Normal st', c')
    /\ confidence (fst st')
       = confidence (set_confidence AngularJS 0)
         + weight (patternSig "attribute"
                     ["ng-app"; "ng-controller"; "ng-model"; "ng-repeat"] 5)
           * Z.of_nat (List.length
                         (filter (attributeFound angularPage)
                                 ["ng-app"; "ng-controller"; "ng-model";
                                  "ng-repeat"])).
Proof.
  apply X13_attribute_counts_each_pattern; reflexivity.
Defined.

Lemma forEach_app {S A} (f : S -> A -> M S) (l1 l2 : list A) (s : S) (c : Console) :
  forEach f (l1 ++ l2) s c = bind (forEach f l1 s) (forEach f l2) c.
Proof.
  revert s c. induction l1 as [|x l1 IH]; intros s c; simpl.
  - reflexivity.
  - unfold bind. destruct (f s x c) as [[s1|e] c1]; [|reflexivity].
    rewrite IH. reflexivity.
Qed.

Lemma evalFramework_extend (options : Options.t) (d : Document) (entry : EntryPoint)
    (names : list string) (visited : list Framework) (framework : Framework)
    (c : Console) :
  evalFramework options d entry (names, visited) framework c
  = extend names visited (evalFramework options d entry ([], []) framework c).
Proof.
  unfold evalFramework, bind.
  destruct (forEach _ _ _ c) as [[[framework1 detectionDetails]|e] c1];
    [|reflexivity].
  destruct (minConfidence framework1 <=? confidence framework1);
    [|unfold ret, extend; now rewrite app_nil_r].
  match goal with |- context [when ?b ?m c1] => destruct (when b m c1) as [[u|e] c2] end;
    reflexivity.
Qed.

Lemma forEach_evalFramework_extend (options : Options.t) (d : Document)
    (entry : EntryPoint) (frameworkList : list Framework) :
  forall (names : list string) (visited : list Framework) (c : Console),
    forEach (evalFramework options d entry) frameworkList (names, visited) c
    = extend names visited
        (forEach (evalFramework options d entry) frameworkList ([], []) c).
Proof.
  induction frameworkList as [|f fl IH]; intros names visited c.
  - simpl. unfold ret. now rewrite !app_nil_r.
  - cbn [forEach]. unfold bind.
    rewrite (evalFramework_extend options d entry names visited f c).
    destruct (evalFramework options d entry ([], []) f c) as [[[n1 v1]|e] c1];
      [|reflexivity].
    cbn [extend app]. rewrite (IH (names ++ n1)%list (visited ++ v1)%list c1).
    rewrite (IH n1 v1 c1).
    destruct (forEach _ fl ([], []) c1) as [[[n2 v2]|e] c2]; [|reflexivity].
    cbn [extend]. now rewrite !app_assoc.
Qed.

(** X14.  The frameworks are evaluated one after the other and
    independently: a pass over two lists put end to end returns the names,
    leaves the frameworks and writes the console lines of a pass over the
    first followed by a pass over the second. *)
Theorem X14_pass_composes (options : Options.t) (d : Document) (entry : EntryPoint)
    (l1 l2 : list Framework) (c : Console) :
  exists n1 a1 c1 n2 a2 c2,
    getDetectedFrameworks options d entry l1 c = (Normal (n1, a1), c1)
    /\ getDetectedFrameworks options d entry l2 c1 = (Normal (n2, a2), c2)
    /\ getDetectedFrameworks options d entry (l1 ++ l2) c
       = (Normal ((n1 ++ n2)%list, (a1 ++ a2)%list), c2).
Proof.
  destruct (proj1 (wp_run _ _ _) (getDetectedFrameworks_run options d entry l1 c))
    as ([n1 a1] & c1 & H1 & _).
  destruct (proj1 (wp_run _ _ _) (getDetectedFrameworks_run options d entry l2 c1))
    as ([n2 a2] & c2 & H2 & _).
  exists n1, a1, c1, n2, a2, c2. split; [exact H1|]. split; [exact H2|].
  unfold getDetectedFrameworks in *.
  rewrite forEach_app. unfold bind. rewrite H1.
  rewrite forEach_evalFramework_extend, H2. reflexivity.
Qed.

Lemma sumZ_Permutation (l l' : list Z) : Permutation l l' -> sumZ l = sumZ l'.
Proof.
  induction 1; simpl; lia.
Qed.

(** X15.  The order of a framework's signals does not matter to the
    result: two frameworks with the same name and threshold whose signal
    lists are permutations of each other are left with the same
    confidence and are reported alike. *)
Theorem X15_signal_order_irrelevant (options : Options.t) (d : Document)
    (entry : EntryPoint) (f f' : Framework) (c : Console) :
  name f' = name f ->
  minConfidence f' = minConfidence f ->
  Permutation (signals f) (signals f') ->
  exists names a a' c1 c2,
    getDetectedFrameworks options d entry [f] c = (Normal (names, [a]), c1)
    /\ getDetectedFrameworks options d entry [f'] c = (Normal (names, [a']), c2)
    /\ confidence a = confidence a'.
Proof.
  intros Hname Hmin Hperm.
  destruct (proj1 (wp_run _ _ _) (getDetectedFrameworks_run options d entry [f] c))
    as ([n a] & c1 & H1 & Heq1 & _).
  destruct (proj1 (wp_run _ _ _) (getDetectedFrameworks_run options d entry [f'] c))
    as ([n' a'] & c2 & H2 & Heq2 & _).
  injection Heq1 as -> ->. injection Heq2 as -> ->.
  assert (Hscore : frameworkScore d entry f = frameworkScore d entry f').
  { unfold frameworkScore. apply sumZ_Permutation. now apply Permutation_map. }
  exists (detectedNames d entry [f]),
    (set_confidence f (frameworkScore d entry f)),
    (set_confidence f' (frameworkScore d entry f')), c1, c2.
  split; [exact H1|]. split; [|exact Hscore].
  rewrite H2. unfold detectedNames, meetsThreshold. cbn [filter map].
  rewrite Hmin, <- Hscore.
  destruct (minConfidence f <=? frameworkScore d entry f); cbn [map];
    now rewrite ?Hname.
Qed.

Lemma X15_witness :
  exists names a a' c1 c2,
    getDetectedFrameworks allOn reactPage SingleFile [React] []
      = (Normal (names, [a]), c1)
    /\ getDetectedFrameworks allOn reactPage SingleFile
         [with_signals React (rev (signals React))] []
       = (Normal (names, [a']), c2)
    /\ confidence a = confidence a'.
Proof.
  apply (X15_signal_order_irrelevant allOn reactPage SingleFile React
           (with_signals React (rev (signals React))) []).
  - reflexivity.
  - reflexivity.
  - apply Permutation_rev.
Defined.

(** X16.  More evidence never hurts: giving a framework one more signal,
    of non-negative weight, never lowers the confidence a pass leaves in
    it, and never takes it out of the result. *)
Theorem X16_more_evidence_never_undetects (options : Options.t) (d : Document)
    (entry : EntryPoint) (f : Framework) (extra : Signal) (c : Console) :
  0 <= weight extra ->
  exists names a c1 names' a' c2,
    getDetectedFrameworks options d entry [f] c = (Normal (names, [a]), c1)
    /\ getDetectedFrameworks options d entry
         [with_signals f (signals f ++ [extra])] c
       = (Normal (names', [a']), c2)
    /\ confidence a <= confidence a'
    /\ incl names names'.
Proof.
  intros Hw.
  destruct (proj1 (wp_run _ _ _) (getDetectedFrameworks_run options d entry [f] c))
    as ([n a] & c1 & H1 & Heq1 & _).
  destruct (proj1 (wp_run _ _ _)
              (getDetectedFrameworks_run options d entry
                 [with_signals f (signals f ++ [extra])] c))
    as ([n' a'] & c2 & H2 & Heq2 & _).
  injection Heq1 as -> ->. injection Heq2 as -> ->.
  assert (Hscore : frameworkScore d entry (with_signals f (signals f ++ [extra]))
                   = frameworkScore d entry f + signalScore d entry extra).
  { unfold frameworkScore. cbn [signals with_signals].
    rewrite map_app. cbn [map].
    generalize (signalScore d entry extra) as x.
    generalize (map (signalScore d entry) (signals f)) as l.
    induction l as [|z l IH]; intros x; cbn [app sumZ]; [lia|].
    rewrite IH. lia. }
  pose proof (signalScore_nonneg d entry extra Hw) as Hnn.
  exists (detectedNames d entry [f]),
    (set_confidence f (frameworkScore d entry f)), c1,
    (detectedNames d entry [with_signals f (signals f ++ [extra])]),
    (set_confidence (with_signals f (signals f ++ [extra]))
       (frameworkScore d entry (with_signals f (signals f ++ [extra])))), c2.
  split; [exact H1|]. split; [exact H2|].
  cbn [confidence set_confidence]. split; [rewrite Hscore; lia|].
  unfold detectedNames, meetsThreshold. cbn [filter map].
  rewrite Hscore. cbn [minConfidence with_signals].
  destruct (minConfidence f <=? frameworkScore d entry f) eqn:Hmeets.
  - apply Z.leb_le in Hmeets.
    assert ((minConfidence f <=? frameworkScore d entry f + signalScore d entry extra)
            = true) as -> by (apply Z.leb_le; lia).
    cbn [map name with_signals]. apply incl_refl.
  - intros x [].
Qed.

Lemma X16_witness :
  exists names a c1 names' a' c2,
    getDetectedFrameworks allOn reactPage SingleFile [ChakraUI] []
      = (Normal (names, [a]), c1)
    /\ getDetectedFrameworks allOn reactPage SingleFile
         [with_signals ChakraUI
            (signals ChakraUI ++ [patternSig "global" ["React"] 4])] []
       = (Normal (names', [a']), c2)
    /\ confidence a <= confidence a'
    /\ incl names names'.
Proof.
  apply (X16_more_evidence_never_undetects allOn reactPage SingleFile ChakraUI
           (patternSig "global" ["React"] 4) []).
  simpl. lia.
Defined.

(* ================================================================== *)
(** * The excerpt of the page source shown in debug mode *)

Lemma length_append (x y : string) :
  String.length (x ++ y) = (String.length x + String.length y)%nat.
Proof. induction x as [|a x IH]; simpl; [reflexivity | now rewrite IH]. Qed.

Lemma startsWith_split (s p : string) :
  startsWith s p = true -> exists post, s = p ++ post.
Proof.
  revert s. induction p as [|b p IH]; intros s H.
  - now exists s.
  - destruct s as [|a s]; [discriminate|]. simpl in H.
    apply andb_true_iff in H as [Hab Hs]. apply Ascii.eqb_eq in Hab. subst b.
    destruct (IH s Hs) as (post & ->). now exists post.
Qed.

Lemma startsWith_append (p post : string) : startsWith (p ++ post) p = true.
Proof.
  induction p as [|b p IH]; simpl; [now destruct post|].
  now rewrite Ascii.eqb_refl, IH.
Qed.

Lemma includes_indexOf (s p : string) :
  includes s p = true -> exists i, indexOf s p = Some i.
Proof.
  induction s as [|a s IH]; intros H.
  - simpl in *. rewrite orb_false_r in H. rewrite H. now exists O.
  - change (startsWith (String a s) p || includes s p = true) in H.
    cbn [indexOf]. destruct (startsWith (String a s) p); [now exists O|].
    destruct (IH H) as (i & ->). now exists (S i).
Qed.

Lemma indexOf_split (s p : string) (i : nat) :
  indexOf s p = Some i ->
  exists pre post, s = pre ++ p ++ post /\ String.length pre = i.
Proof.
  revert i. induction s as [|a s IH]; intros i H; cbn [indexOf] in H.
  - destruct (startsWith EmptyString p) eqn:Hp; [|discriminate].
    injection H as <-. destruct (startsWith_split _ _ Hp) as (post & Hpost).
    now exists EmptyString, post.
  - destruct (startsWith (String a s) p) eqn:Hp.
    + injection H as <-. destruct (startsWith_split _ _ Hp) as (post & Hpost).
      now exists EmptyString, post.
    + destruct (indexOf s p) as [j|]; [|discriminate]. injection H as <-.
      destruct (IH j eq_refl) as (pre & post & -> & Hlen).
      exists (String a pre), post. simpl. now rewrite Hlen.
Qed.

Lemma string_split_at (n : nat) (s : string) :
  (n <= String.length s)%nat ->
  exists x y, s = x ++ y /\ String.length x = n.
Proof.
  revert s. induction n as [|n IH]; intros s Hn.
  - now exists EmptyString, s.
  - destruct s as [|a s]; [simpl in Hn; lia|]. simpl in Hn.
    destruct (IH s) as (x & y & -> & Hx); [lia|].
    exists (String a x), y. simpl. now rewrite Hx.
Qed.

Lemma substring_skip (x s : string) (m : nat) :
  substring (String.length x) m (x ++ s) = substring 0 m s.
Proof. induction x as [|a x IH]; simpl; [reflexivity | exact IH]. Qed.

Lemma substring_take (t post : string) (m : nat) :
  (String.length t <= m)%nat -> exists post', substring 0 m (t ++ post) = t ++ post'.
Proof.
  revert m. induction t as [|a t IH]; intros m Hm.
  - now exists (substring 0 m post).
  - destruct m as [|m]; [simpl in Hm; lia|]. simpl in Hm.
    destruct (IH m) as (post' & Hpost'); [lia|].
    exists post'. simpl. now rewrite Hpost'.
Qed.

Lemma substring_length_le (n m : nat) (s : string) :
  (String.length (substring n m s) <= m)%nat.
Proof.
  revert n m. induction s as [|a s IH]; intros n m.
  - destruct n, m; simpl; lia.
  - destruct n as [|n]; [destruct m as [|m]|]; simpl; [lia| |apply IH].
    specialize (IH O m). lia.
Qed.

(** A window that covers an occurrence of [p] contains [p]. *)
Lemma substring_covers (s p pre post : string) (start len : nat) :
  s = pre ++ p ++ post ->
  (start <= String.length pre)%nat ->
  (String.length pre + String.length p <= start + len)%nat ->
  includes (substring start len s) p = true.
Proof.
  intros -> Hstart Hlen.
  destruct (@string_split_at start pre Hstart) as (x & y & -> & Hx).
  rewrite length_append in Hlen.
  rewrite append_assoc, <- Hx, substring_skip.
  rewrite <- (append_assoc y p post).
  destruct (@substring_take (y ++ p) post len) as (post' & ->).
  { rewrite length_append. lia. }
  rewrite append_assoc. apply includes_append_r.
  pose proof (startsWith_append p post') as Hsw.
  destruct (p ++ post'); simpl in *; now rewrite Hsw.
Qed.

(** X17.  In debug mode, when a file pattern is found in the page source
    only, the engine adds 1 and logs one line with an excerpt of the page
    source; that excerpt always contains the (lowercased) pattern and is at
    most 100 characters longer than it. *)
Theorem X17_source_context_contains_match (options : Options.t) (signal : Signal)
    (scriptTags_ : list Element) (scriptSrcs : list string) (pageSource : string)
    (a : Acc) (pattern : string) (c : Console) :
  Options.debugMode options = true ->
  (forall src_, In src_ scriptSrcs -> includes src_ (toLowerCase pattern) = false) ->
  includes pageSource (toLowerCase pattern) = true ->
  exists context,
    filePattern options signal scriptTags_ scriptSrcs pageSource a pattern c
    = (Normal (fire 1 [DetailString ("Found pattern in page source: " ++ pattern)] a),
       (c ++ [ConsoleLog
                ("%c[Tech Analyzer Debug] %c"
                   ++ "Source context containing " ++ dquote ++ pattern ++ dquote ++ ":")
                [DataString "color: #2b90d9; font-weight: bold;";
                 DataString "color: inherit;";
                 DataString ("..." ++ context ++ "...")]])%list)
    /\ includes context (toLowerCase pattern) = true
    /\ (String.length context <= String.length (toLowerCase pattern) + 100)%nat.
Proof.
  intros Hdebug Hnone Hsource.
  destruct (includes_indexOf _ _ Hsource) as (i & Hindex).
  destruct (indexOf_split _ _ Hindex) as (pre & post & Hsplit & Hpre).
  unfold filePattern.
  assert (Hfind : find (fun src_ => includes src_ (toLowerCase pattern)) scriptSrcs
                  = None).
  { destruct (find _ scriptSrcs) as [found|] eqn:Hf; [|reflexivity].
    apply find_some in Hf as [Hin Hinc]. rewrite (Hnone _ Hin) in Hinc.
    discriminate. }
  rewrite Hfind, Hsource, Hdebug, Hindex.
  unfold debugLog, bind, console_log, ret. rewrite Hdebug.
  eexists. split; [reflexivity|].
  set (len := String.length pageSource).
  set (plen := String.length (toLowerCase pattern)).
  assert (Hlen : len = (i + plen + String.length post)%nat).
  { unfold len, plen. rewrite Hsplit, !length_append. lia. }
  unfold substring_. split.
  - apply (@substring_covers pageSource (toLowerCase pattern) pre post); [exact Hsplit| |].
    + rewrite Hpre. lia.
    + rewrite Hpre. fold plen. lia.
  - pose proof (substring_length_le
                  (Z.to_nat (Z.max 0 (Z.of_nat i - 50)))
                  (Z.to_nat (Z.min (Z.of_nat len) (Z.of_nat i + Z.of_nat plen + 50))
                   - Z.to_nat (Z.max 0 (Z.of_nat i - 50)))
                  pageSource).
    lia.
Qed.

Lemma X17_witness :
  exists context,
    filePattern allOn (patternSig "file" ["bootstrap.min.css"] 5) [] []
      (toLowerCase (documentElement_outerHTML stylesheetPage))
      (startOf ChakraUI (patternSig "file" ["bootstrap.min.css"] 5))
      "bootstrap.min.css" []
    = (Normal (fire 1 [DetailString ("Found pattern in page source: "
                                       ++ "bootstrap.min.css")]
                 (startOf ChakraUI (patternSig "file" ["bootstrap.min.css"] 5))),
       ([] ++ [ConsoleLog
                 ("%c[Tech Analyzer Debug] %c"
                    ++ "Source context containing " ++ dquote ++ "bootstrap.min.css"
                    ++ dquote ++ ":")
                 [DataString "color: #2b90d9; font-weight: bold;";
                  DataString "color: inherit;";
                  DataString ("..." ++ context ++ "...")]])%list)
    /\ includes context (toLowerCase "bootstrap.min.css") = true
    /\ (String.length context <= String.length (toLowerCase "bootstrap.min.css") + 100)%nat.
Proof.
  apply X17_source_context_contains_match.
  - reflexivity.
  - intros src_ [].
  - reflexivity.
Defined.

(* ================================================================== *)
(** * The shape of the debug trace *)






Section Traces.

Variable options : Options.t.
Variable document : Document.
Variable entry : EntryPoint.












End Traces.




Section PassTraces.

Variable options : Options.t.
Variable document : Document.
Variable entry : EntryPoint.





End PassTraces.


(* ================================================================== *)
(** * The listing functions of the modular entry point *)

Lemma uniqueTruthy_In (l : list (option string)) (seen : list string) (n : string) :
  In n (uniqueTruthy seen l)
  <-> In (Some n) l /\ nonEmpty n = true /\ ~ In n seen.
Proof.
  revert seen. induction l as [|[s|] l IH]; intros seen; simpl.
  - tauto.
  - destruct (nonEmpty s) eqn:Hs; simpl.
    + destruct (existsb (String.eqb s) seen) eqn:Hseen.
      * apply existsb_exists in Hseen as (x & Hx & Heq).
        apply String.eqb_eq in Heq. subst x.
        rewrite IH. split.
        -- intros (H1 & H2 & H3). auto.
        -- intros ([H|H] & H2 & H3); [|auto].
           injection H as ->. contradiction.
      * assert (Hnot : ~ In s seen).
        { intros Hin. apply Bool.not_true_iff_false in Hseen. apply Hseen.
          apply existsb_exists. exists s. split; [exact Hin | apply String.eqb_refl]. }
        simpl. rewrite IH. simpl. split.
        -- intros [->|(H1 & H2 & H3)]; [auto|].
           split; [auto|]. split; [auto|]. intros H. apply H3. auto.
        -- intros ([H|H] & H2 & H3); [left; congruence|].
           destruct (String.eqb s n) eqn:Heq.
           ++ apply String.eqb_eq in Heq. auto.
           ++ apply String.eqb_neq in Heq. right. split; [auto|]. split; [auto|].
              intros [H4|H4]; auto.
    + rewrite IH. split.
      * intros (H1 & H2 & H3). auto.
      * intros ([H|H] & H2 & H3); [|auto]. injection H as ->. congruence.
  - rewrite IH. split.
    + intros (H1 & H2 & H3). auto.
    + intros ([H|H] & H2 & H3); [discriminate | auto].
Qed.

Lemma uniqueTruthy_NoDup (l : list (option string)) (seen : list string) :
  NoDup (uniqueTruthy seen l).
Proof.
  revert seen. induction l as [|[s|] l IH]; intros seen; simpl.
  - constructor.
  - destruct (nonEmpty s); simpl; [|apply IH].
    destruct (existsb (String.eqb s) seen); [apply IH|].
    constructor; [|apply IH].
    intros Hin. apply uniqueTruthy_In in Hin as (_ & _ & Hnot).
    apply Hnot. left. reflexivity.
  - apply IH.
Qed.

Section InPageRuns.

Variable options : Options.t.
Variable URL_ : string -> Completion URL.
Variable getAttribute_href : Element -> string.

Lemma cssLink_run (debugInfo : Injected.DebugInfo) (link : Element) (c : Console) :
  wp (Injected.cssLink options URL_ getAttribute_href debugInfo link)
     (fun r c' => fst r = Injected.cssEntry URL_ getAttribute_href link
                  /\ (Options.debugMode options = false -> c' = c)) c.
Proof.
  unfold wp, Injected.cssLink, Injected.cssEntry, try_catch, bind, call, when,
    debugLog, console_log, ret.
  destruct (find _ Injected.importantCssPatterns) as [p|].
  - destruct (Options.debugMode options); simpl; split;
      (reflexivity || discriminate).
  - destruct (URL_ (href link)) as [url|e].
    + match goal with |- context [if ?b then _ else _] => destruct b end;
        destruct (Options.debugMode options); simpl; split;
        (reflexivity || discriminate).
    + destruct (negb (nonEmpty (getAttribute_href link))).
      * simpl. auto.
      * destruct (find _ Injected.importantCssPatterns) as [p|].
        -- destruct (Options.debugMode options); simpl; split;
             (reflexivity || discriminate).
        -- match goal with |- context [if ?b then _ else _] => destruct b end;
             destruct (Options.debugMode options); simpl; split;
             (reflexivity || discriminate).
Qed.

Lemma mapWith_run {A B} (f : Injected.DebugInfo -> A -> M (B * Injected.DebugInfo))
    (g : A -> B) (quiet : Prop) :
  (forall i x c, wp (f i x) (fun r c' => fst r = g x /\ (quiet -> c' = c)) c) ->
  forall l i c,
    wp (Injected.mapWith f i l) (fun r c' => fst r = map g l /\ (quiet -> c' = c)) c.
Proof.
  intros Hf. induction l as [|x l IH]; intros i c; simpl.
  - apply wp_ret. auto.
  - apply wp_bind. eapply wp_mono; [|apply Hf]. intros y c1 [Hy Hq1].
    apply wp_bind. eapply wp_mono; [|apply IH]. intros ys c2 [Hys Hq2].
    apply wp_ret. cbn [fst]. split; [congruence|].
    intros q. rewrite (Hq2 q). auto.
Qed.

(** The list [findCSSFiles] returns. *)
Lemma findCSSFiles_run (styleSheets : list (Completion (option string)))
    (d : Document) (c : Console) :
  wp (Injected.findCSSFiles options URL_ getAttribute_href styleSheets d)
     (fun r c' =>
        r = (let cssFiles :=
               uniqueTruthy [] (map (Injected.cssEntry URL_ getAttribute_href)
                                    (styleLinks d)) in
             if (List.length cssFiles =? 0)%nat then ["None found"] else cssFiles)
        /\ (Options.debugMode options = false -> c' = c)) c.
Proof.
  unfold Injected.findCSSFiles.
  apply wp_bind.
  apply wp_mono with
    (Q := fun (_ : unit) c' => Options.debugMode options = false -> c' = c).
  2:{ unfold wp, when, debugLog, console_log, ret.
      destruct (Options.debugMode options); simpl; [discriminate | reflexivity]. }
  intros [] c1 Hq1.
  destruct (Injected.loadedSheets options styleSheets _) as [styleSheetUrls debugInfo].
  apply wp_bind.
  eapply wp_mono;
    [|apply (mapWith_run _ (Injected.cssEntry URL_ getAttribute_href)
               (Options.debugMode options = false));
      intros; apply cssLink_run].
  intros r c2 [Hr Hq2]. cbv beta in Hr. rewrite Hr.
  apply wp_bind.
  apply wp_mono with
    (Q := fun (_ : unit) c' => Options.debugMode options = false -> c' = c).
  2:{ unfold wp, when, debugLog, console_log, ret.
      destruct (Options.debugMode options); simpl; [discriminate|].
      intros _. rewrite (Hq2 eq_refl). auto. }
  intros [] c3 Hq3. cbv zeta.
  destruct (List.length _ =? 0)%nat; apply wp_ret; auto.
Qed.



End InPageRuns.

(** X19.  [findCSSFiles] of the modular entry point never throws, and the
    list it returns depends neither on debug mode nor on what
    [document.styleSheets] holds, even when reading a sheet throws: both
    only feed the debug summary.  With debug mode off nothing is written to
    the console. *)
Theorem X19_css_listing_ignores_debug_and_sheets (options : Options.t)
    (URL_ : string -> Completion URL) (getAttribute_href : Element -> string)
    (styleSheets styleSheets' : list (Completion (option string)))
    (d : Document) (c : Console) :
  exists files c_on,
    Injected.findCSSFiles options URL_ getAttribute_href styleSheets d c
      = (Normal files, c_on)
    /\ Injected.findCSSFiles (setDebugMode options false) URL_ getAttribute_href
         styleSheets' d c
       = (Normal files, c).
Proof.
  destruct (proj1 (wp_run _ _ _)
              (findCSSFiles_run options URL_ getAttribute_href styleSheets d c))
    as (files & c_on & Hon & -> & _).
  destruct (proj1 (wp_run _ _ _)
              (findCSSFiles_run (setDebugMode options false) URL_
                 getAttribute_href styleSheets' d c))
    as (files' & c_off & Hoff & -> & Hq).
  rewrite (Hq eq_refl) in Hoff.
  eexists _, c_on. split; [exact Hon | exact Hoff].
Qed.

(** X20.  The list [findCSSFiles] of the modular entry point returns is
    never empty, holds no name twice, and holds no empty name. *)
Theorem X20_css_listing_distinct (options : Options.t)
    (URL_ : string -> Completion URL) (getAttribute_href : Element -> string)
    (styleSheets : list (Completion (option string)))
    (d : Document) (c : Console) :
  exists files c',
    Injected.findCSSFiles options URL_ getAttribute_href styleSheets d c
      = (Normal files, c')
    /\ files <> []
    /\ NoDup files
    /\ forall n, In n files -> n <> EmptyString.
Proof.
  destruct (proj1 (wp_run _ _ _)
              (findCSSFiles_run options URL_ getAttribute_href styleSheets d c))
    as (files & c' & Hrun & -> & _).
  eexists _, c'. split; [exact Hrun|]. cbv zeta.
  destruct (uniqueTruthy [] _) as [|x xs] eqn:Hfiles; cbn [List.length Nat.eqb].
  - split; [discriminate|]. split.
    + constructor; [intros []|constructor].
    + intros n [<-|[]]. discriminate.
  - split; [discriminate|]. rewrite <- Hfiles. split; [apply uniqueTruthy_NoDup|].
    intros n Hn. apply uniqueTruthy_In in Hn as (_ & Hne & _).
    intros ->. discriminate.
Qed.

(** X21.  A stylesheet whose address, in lower case, contains one of the
    six common file names is always listed by [findCSSFiles] of the modular
    entry point under such a contained common name, whatever the browser
    makes of the address and whatever its path: the name listed is the
    common name, not the file's own. *)
Theorem X21_common_names_always_listed (options : Options.t)
    (URL_ : string -> Completion URL) (getAttribute_href : Element -> string)
    (styleSheets : list (Completion (option string)))
    (d : Document) (c : Console) (link : Element) (pattern : string) :
  In link (styleLinks d) ->
  In pattern Injected.importantCssPatterns ->
  includes (toLowerCase (href link)) pattern = true ->
  exists files c' listed,
    Injected.findCSSFiles options URL_ getAttribute_href styleSheets d c
      = (Normal files, c')
    /\ In listed Injected.importantCssPatterns
    /\ includes (toLowerCase (href link)) listed = true
    /\ In listed files.
Proof.
  intros Hlink Hpattern Hincludes.
  destruct (proj1 (wp_run _ _ _)
              (findCSSFiles_run options URL_ getAttribute_href styleSheets d c))
    as (files & c' & Hrun & -> & _).
  destruct (find (fun p => includes (toLowerCase (href link)) p)
                 Injected.importantCssPatterns) as [listed|] eqn:Hfind.
  2:{ pose proof (find_none _ _ Hfind _ Hpattern) as Hno. cbv beta in Hno.
      congruence. }
  pose proof (find_some _ _ Hfind) as [Hin Hinc]. cbv beta in Hinc.
  eexists _, c', listed. split; [exact Hrun|]. split; [exact Hin|].
  split; [exact Hinc|]. cbv zeta.
  assert (Hlisted : In listed
            (uniqueTruthy [] (map (Injected.cssEntry URL_ getAttribute_href)
                                  (styleLinks d)))).
  { apply uniqueTruthy_In. split; [|split].
    - apply in_map_iff. exists link. split; [|exact Hlink].
      unfold Injected.cssEntry. rewrite Hfind. reflexivity.
    - clear -Hin. simpl in Hin.
      repeat (destruct Hin as [<-|Hin]; [reflexivity|]). destruct Hin.
    - intros []. }
  destruct (uniqueTruthy [] _) as [|x xs]; [destruct Hlisted|].
  cbn [List.length Nat.eqb]. exact Hlisted.
Qed.

Lemma X21_witness :
  exists files c' listed,
    Injected.findCSSFiles filesOnly exampleURL href [] domainSheetPage []
      = (Normal files, c')
    /\ In listed Injected.importantCssPatterns
    /\ includes (toLowerCase (href (styleLink "https://example.com/api/domain.css")))
         listed = true
    /\ In listed files.
Proof.
  apply (@X21_common_names_always_listed filesOnly exampleURL href []
           domainSheetPage [] (styleLink "https://example.com/api/domain.css")
           "main.css").
  - simpl. auto.
  - simpl. auto.
  - vm_compute. reflexivity.
Defined.

